(** * Financial metrics and technical indicators: a shallow embedding

    The development follows [utils/calculate_metrics.py]:
    [extract_value], [calculate_financial_metric], [calculate_growth_rates]
    and [calculate_technical_indicators], together with the parts of the
    Python and pandas semantics these functions rely on.

    Numbers.  Python ints and floats are idealised: a finite number is an
    exact rational ([Qc]), so rounding and overflow are not modelled, and the
    sign of a zero is not tracked.  [NaN] and the two infinities are kept,
    because pandas uses them as values. *)

From Stdlib Require Import QArith Qcanon ZArith String Field.
From stdpp Require Import base numbers strings list gmap fin_maps.

Local Open Scope Qc_scope.

(** ** Floating values *)

Inductive pyfloat :=
  | Fin (q : Qc)
  | NaN
  | Inf (neg : bool).

Global Instance pyfloat_eq_dec : EqDecision pyfloat.
Proof. solve_decision. Defined.

Definition is_nan (x : pyfloat) : bool :=
  match x with NaN => true | _ => false end.

Definition fneg (x : pyfloat) : pyfloat :=
  match x with
  | Fin q => Fin (- q)
  | NaN => NaN
  | Inf s => Inf (negb s)
  end.

Definition qabs (x : Qc) : Qc := if bool_decide (x < 0) then - x else x.

Definition fabs (x : pyfloat) : pyfloat :=
  match x with
  | Fin x => Fin (qabs x)
  | NaN => NaN
  | Inf _ => Inf false
  end.

Definition fadd (x y : pyfloat) : pyfloat :=
  match x, y with
  | NaN, _ | _, NaN => NaN
  | Fin a, Fin b => Fin (a + b)
  | Inf s, Fin _ | Fin _, Inf s => Inf s
  | Inf s, Inf t => if Bool.eqb s t then Inf s else NaN
  end.

Definition fsub (x y : pyfloat) : pyfloat := fadd x (fneg y).

(** IEEE division, as numpy performs it on arrays: a zero divisor gives an
    infinity (or [NaN] for 0/0), never an exception. *)
Definition fdiv (x y : pyfloat) : pyfloat :=
  match x, y with
  | NaN, _ | _, NaN => NaN
  | Inf _, Inf _ => NaN
  | Inf s, Fin b => Inf (xorb s (bool_decide (b < 0)))
  | Fin _, Inf _ => Fin 0
  | Fin a, Fin b =>
      if bool_decide (b = 0)
      then (if bool_decide (a = 0) then NaN else Inf (bool_decide (a < 0)))
      else Fin (a / b)
  end.

(** [x > 0] and [x < 0]; both are false on [NaN]. *)
Definition fgt0 (x : pyfloat) : bool :=
  match x with
  | Fin q => bool_decide (0 < q)
  | NaN => false
  | Inf s => negb s
  end.

Definition flt0 (x : pyfloat) : bool :=
  match x with
  | Fin q => bool_decide (q < 0)
  | NaN => false
  | Inf s => s
  end.

(** [x == 0] *)
Definition feq0 (x : pyfloat) : bool :=
  match x with
  | Fin q => bool_decide (q = 0)
  | _ => false
  end.

(** ** Python values *)

(** Scalars, as they arrive in a JSON document. *)
Inductive pyval :=
  | PyNone
  | PyNum (x : pyfloat)
  | PyStr (s : string).

Global Instance pyval_eq_dec : EqDecision pyval.
Proof. solve_decision. Defined.

(** Objects stored under a key of a dict. *)
Inductive pyobj :=
  | PyVal (v : pyval)
  | PyComplex (re im : pyfloat)
  | PyList (l : list pyval)
  | PyDict (d : gmap string pyval).

Global Instance pyobj_eq_dec : EqDecision pyobj.
Proof. solve_decision. Defined.

Coercion PyVal : pyval >-> pyobj.

(** A finite number as a Python value. *)
Definition num_of (q : Qc) : pyval := PyNum (Fin q).

(** ** Exceptions *)

Inductive exn := TypeError | KeyError | ValueError | ZeroDivisionError.

Inductive pyresult (A : Type) :=
  | Ok (a : A)
  | Raise (e : exn).
Arguments Ok {A} a.
Arguments Raise {A} e.

Global Instance exn_eq_dec : EqDecision exn.
Proof. solve_decision. Defined.
Global Instance pyresult_eq_dec `{EqDecision A} : EqDecision (pyresult A).
Proof. solve_decision. Defined.

Global Instance pyresult_ret : MRet pyresult := λ A a, Ok a.
Global Instance pyresult_bind : MBind pyresult := λ A B f m,
  match m with
  | Ok a => f a
  | Raise e => Raise e
  end.

(** ** Operators on scalars *)

Definition is_none (v : pyval) : bool :=
  match v with PyNone => true | _ => false end.

(** [v == 0] *)
Definition py_eq0 (v : pyval) : bool :=
  match v with PyNum x => feq0 x | _ => false end.

(** [v not in (None, 0)] *)
Definition not_in_none_zero (v : pyval) : bool :=
  negb (is_none v || py_eq0 v).

Definition py_sub (a b : pyval) : pyresult pyval :=
  match a, b with
  | PyNum x, PyNum y => Ok (PyNum (fsub x y))
  | _, _ => Raise TypeError
  end.

(** [+] adds numbers and concatenates strings. *)
Definition py_add (a b : pyval) : pyresult pyval :=
  match a, b with
  | PyNum x, PyNum y => Ok (PyNum (fadd x y))
  | PyStr s, PyStr t => Ok (PyStr (s +:+ t))
  | _, _ => Raise TypeError
  end.

(** True division of Python scalars: a zero divisor raises. *)
Definition py_truediv (a b : pyval) : pyresult pyval :=
  match a, b with
  | PyNum x, PyNum y =>
      if feq0 y then Raise ZeroDivisionError else Ok (PyNum (fdiv x y))
  | _, _ => Raise TypeError
  end.

Definition py_abs (a : pyval) : pyresult pyval :=
  match a with
  | PyNum x => Ok (PyNum (fabs x))
  | _ => Raise TypeError
  end.

(** ** Containers *)

(** [key in obj], for a string [key]. *)
Definition py_contains (obj : pyobj) (key : string) : pyresult bool :=
  match obj with
  | PyDict d => Ok (bool_decide (is_Some (d !! key)))
  | PyList l => Ok (bool_decide (PyStr key ∈ l))
  | PyVal (PyStr s) =>
      Ok (match String.index 0 key s with Some _ => true | None => false end)
  | PyVal _ | PyComplex _ _ => Raise TypeError
  end.

(** [obj[key]], for a string [key]: only a dict can be indexed by a string. *)
Definition py_getitem (obj : pyobj) (key : string) : pyresult pyval :=
  match obj with
  | PyDict d =>
      match d !! key with
      | Some v => Ok v
      | None => Raise KeyError
      end
  | _ => Raise TypeError
  end.

(** ** Metric resolver *)

Fixpoint extract_value (financial_data : gmap string pyobj) (key : string)
    (preferred_sources : list string) : pyresult pyval :=
  match preferred_sources with
  | [] => Ok PyNone
  | src :: rest =>
      match financial_data !! src with
      | Some obj =>
          found ← py_contains obj key;
          if found : bool then py_getitem obj key
          else extract_value financial_data key rest
      | None => extract_value financial_data key rest
      end
  end.

Definition safe_div (num denom : pyval) : pyresult pyval :=
  if negb (is_none num) && not_in_none_zero denom
  then py_truediv num denom
  else Ok PyNone.

(** [None not in (a, b, c)] *)
Definition none_not_in (vs : list pyval) : bool :=
  forallb (λ v, negb (is_none v)) vs.

Section metric_branches.
Variable financial_data : gmap string pyobj.

Definition gross_margin : pyresult pyval :=
  revenue ← extract_value financial_data "revenue" ["income_statement"];
  cogs ← extract_value financial_data "cost_of_goods_sold" ["income_statement"];
  if negb (is_none revenue) && negb (is_none cogs)
  then diff ← py_sub revenue cogs; safe_div diff revenue
  else Ok PyNone.

Definition operating_margin : pyresult pyval :=
  revenue ← extract_value financial_data "revenue" ["income_statement"];
  operating_income ← extract_value financial_data "operating_income" ["income_statement"];
  safe_div operating_income revenue.

Definition net_profit_margin : pyresult pyval :=
  revenue ← extract_value financial_data "revenue" ["income_statement"];
  net_income ← extract_value financial_data "net_income" ["income_statement"];
  safe_div net_income revenue.

Definition ebitda : pyresult pyval :=
  ebitda ← extract_value financial_data "ebitda" ["income_statement"];
  if negb (is_none ebitda) then Ok ebitda
  else
    operating_income ← extract_value financial_data "operating_income" ["income_statement"];
    depreciation ← extract_value financial_data "depreciation" ["income_statement"; "cash_flow"];
    amortization ← extract_value financial_data "amortization" ["income_statement"; "cash_flow"];
    if none_not_in [operating_income; depreciation; amortization]
    then s ← py_add operating_income depreciation; py_add s amortization
    else Ok PyNone.

Definition debt_to_equity : pyresult pyval :=
  total_liabilities ← extract_value financial_data "total_liabilities" ["balance_sheet"];
  shareholders_equity ← extract_value financial_data "shareholders_equity" ["balance_sheet"];
  safe_div total_liabilities shareholders_equity.

Definition current_ratio : pyresult pyval :=
  current_assets ← extract_value financial_data "current_assets" ["balance_sheet"];
  current_liabilities ← extract_value financial_data "current_liabilities" ["balance_sheet"];
  safe_div current_assets current_liabilities.

Definition quick_ratio : pyresult pyval :=
  current_assets ← extract_value financial_data "current_assets" ["balance_sheet"];
  inventory ← extract_value financial_data "inventory" ["balance_sheet"];
  current_liabilities ← extract_value financial_data "current_liabilities" ["balance_sheet"];
  if none_not_in [current_assets; inventory; current_liabilities]
  then diff ← py_sub current_assets inventory; safe_div diff current_liabilities
  else Ok PyNone.

Definition book_value_per_share : pyresult pyval :=
  shareholders_equity ← extract_value financial_data "shareholders_equity" ["balance_sheet"];
  shares_outstanding ← extract_value financial_data "shares_outstanding" ["market"; "income_statement"];
  safe_div shareholders_equity shares_outstanding.

Definition free_cash_flow : pyresult pyval :=
  operating_cash_flow ← extract_value financial_data "operating_cash_flow" ["cash_flow"];
  capex ← extract_value financial_data "capital_expenditures" ["cash_flow"];
  if none_not_in [operating_cash_flow; capex]
  then py_sub operating_cash_flow capex
  else Ok PyNone.

Definition cash_flow_margin : pyresult pyval :=
  operating_cash_flow ← extract_value financial_data "operating_cash_flow" ["cash_flow"];
  revenue ← extract_value financial_data "revenue" ["income_statement"];
  safe_div operating_cash_flow revenue.

Definition roe : pyresult pyval :=
  net_income ← extract_value financial_data "net_income" ["income_statement"];
  shareholders_equity ← extract_value financial_data "shareholders_equity" ["balance_sheet"];
  safe_div net_income shareholders_equity.

Definition roa : pyresult pyval :=
  net_income ← extract_value financial_data "net_income" ["income_statement"];
  total_assets ← extract_value financial_data "total_assets" ["balance_sheet"];
  safe_div net_income total_assets.

Definition pe_ratio : pyresult pyval :=
  price ← extract_value financial_data "price" ["market"];
  net_income ← extract_value financial_data "net_income" ["income_statement"];
  shares_outstanding ← extract_value financial_data "shares_outstanding" ["market"; "income_statement"];
  eps ← safe_div net_income shares_outstanding;
  if not_in_none_zero eps then safe_div price eps else Ok PyNone.

Definition pb_ratio : pyresult pyval :=
  price ← extract_value financial_data "price" ["market"];
  shareholders_equity ← extract_value financial_data "shareholders_equity" ["balance_sheet"];
  shares_outstanding ← extract_value financial_data "shares_outstanding" ["market"; "income_statement"];
  book_value_per_share ← safe_div shareholders_equity shares_outstanding;
  if not_in_none_zero book_value_per_share
  then safe_div price book_value_per_share
  else Ok PyNone.

Definition dividend_yield : pyresult pyval :=
  dividends_per_share ← extract_value financial_data "dividends_per_share" ["income_statement"; "market"];
  price ← extract_value financial_data "price" ["market"];
  safe_div dividends_per_share price.
End metric_branches.

(** The [if]/[elif] chain on the indicator name: the branch that computes
    [value], or [None] for the final [else]. *)
Definition metric_value (financial_data : gmap string pyobj) (indicator : string)
    : option (pyresult pyval) :=
  if (indicator =? "gross_margin")%string then Some (gross_margin financial_data)
  else if (indicator =? "operating_margin")%string then Some (operating_margin financial_data)
  else if (indicator =? "net_profit_margin")%string then Some (net_profit_margin financial_data)
  else if (indicator =? "ebitda")%string then Some (ebitda financial_data)
  else if (indicator =? "debt_to_equity")%string then Some (debt_to_equity financial_data)
  else if (indicator =? "current_ratio")%string then Some (current_ratio financial_data)
  else if (indicator =? "quick_ratio")%string then Some (quick_ratio financial_data)
  else if (indicator =? "book_value_per_share")%string then Some (book_value_per_share financial_data)
  else if (indicator =? "free_cash_flow")%string then Some (free_cash_flow financial_data)
  else if (indicator =? "cash_flow_margin")%string then Some (cash_flow_margin financial_data)
  else if (indicator =? "roe")%string then Some (roe financial_data)
  else if (indicator =? "roa")%string then Some (roa financial_data)
  else if (indicator =? "pe_ratio")%string then Some (pe_ratio financial_data)
  else if (indicator =? "pb_ratio")%string then Some (pb_ratio financial_data)
  else if (indicator =? "dividend_yield")%string then Some (dividend_yield financial_data)
  else None.

Definition calculate_financial_metric (financial_data : gmap string pyobj)
    (indicator : string) : pyresult (gmap string pyobj) :=
  match metric_value financial_data indicator with
  | Some branch =>
      value ← branch;
      Ok {[ "indicator" := PyVal (PyStr indicator); "value" := PyVal value ]}
  | None =>
      Ok {[ "indicator" := PyVal (PyStr indicator); "value" := PyVal PyNone;
            "error" := PyVal (PyStr "Unknown indicator") ]}
  end.

(** The names the chain recognises. *)
Definition supported_indicators : list string :=
  [ "gross_margin"; "operating_margin"; "net_profit_margin"; "ebitda";
    "debt_to_equity"; "current_ratio"; "quick_ratio"; "book_value_per_share";
    "free_cash_flow"; "cash_flow_margin"; "roe"; "roa"; "pe_ratio"; "pb_ratio";
    "dividend_yield" ].

(** ** What the program takes from its runtime

    Three things are kept abstract: the floating power function, whose
    results are not rationals; the text of an exception, which depends on the
    operand types and on the library version; and the rolling standard
    deviation, which needs square roots. *)

Class Runtime := {
  (** [b ** e] for the exponents the program uses, [0 < e <= 1]: there
      CPython's float power neither overflows nor divides by zero.  The result
      is a float ([inl]) or, for a negative base and a non-integral exponent,
      a complex number ([inr]). *)
  float_pow : pyfloat → pyfloat → pyfloat + pyfloat * pyfloat;
  (** [str(e)] *)
  exn_str : exn → string;
  (** [Series.rolling(window).std()] for a window that [rolling] accepts. *)
  rolling_std : Z → list pyfloat → list pyfloat;
}.

(** ** Growth rates *)

(** [v != 0] *)
Definition py_ne0 (v : pyval) : bool := negb (py_eq0 v).

(** One pass of the loop [for i in range(1, len(series))]: [prev] is
    [series[i-1]] and the head of [rest] is [series[i]]. *)
Fixpoint period_growth (prev : pyval) (rest : list pyval) : pyresult (list pyval) :=
  match rest with
  | [] => Ok []
  | curr :: rest' =>
      growth ← (if py_ne0 prev
                then diff ← py_sub curr prev; a ← py_abs prev; py_truediv diff a
                else Ok PyNone);
      growth_rates ← period_growth curr rest';
      Ok (growth :: growth_rates)
  end.

Definition py_pow `{Runtime} (base : pyval) (e : pyfloat) : pyresult pyobj :=
  match base with
  | PyNum b =>
      Ok (match float_pow b e with
          | inl r => PyVal (PyNum r)
          | inr (re, im) => PyComplex re im
          end)
  | _ => Raise TypeError
  end.

(** [a - 1] *)
Definition py_sub1 (a : pyobj) : pyresult pyobj :=
  match a with
  | PyVal (PyNum x) => Ok (PyVal (PyNum (fsub x (Fin 1))))
  | PyComplex re im => Ok (PyComplex (fsub re (Fin 1)) im)
  | _ => Raise TypeError
  end.

(** [1/(len(series)-1)] *)
Definition annual_exponent (n : nat) : pyfloat :=
  Fin (1 / Qc_of_Z (Z.of_nat n - 1)).

Definition annualized_growth `{Runtime} (series : list pyval) : pyresult pyobj :=
  match series with
  | first :: _ :: _ =>
      if py_ne0 first
      then
        ratio ← py_truediv (List.last series PyNone) first;
        p ← py_pow ratio (annual_exponent (length series));
        py_sub1 p
      else Ok (PyVal PyNone)
  | _ => Ok (PyVal PyNone)
  end.

Definition calculate_growth_rates `{Runtime} (series : list pyval) : gmap string pyobj :=
  let body :=
    growth_rates ← match series with
                   | [] => Ok []
                   | first :: rest => period_growth first rest
                   end;
    annualized ← annualized_growth series;
    Ok (annualized, growth_rates) in
  match body with
  | Ok (annualized, growth_rates) =>
      {[ "annualized_growth_rate" := annualized;
         "period_growth_rates" := PyList growth_rates ]}
  | Raise e => {[ "error" := PyVal (PyStr (exn_str e)) ]}
  end.

(** ** pandas

    A Series that may hold missing values is a [list pyfloat]; the prices and
    the exponentially weighted means, which hold none, are [list Qc]. *)

(** [Series.diff()] *)
Definition series_diff (xs : list pyfloat) : list pyfloat :=
  match xs with
  | [] => []
  | _ :: rest => NaN :: zip_with (λ prev cur, fsub cur prev) xs rest
  end.

(** [Series.pct_change()] *)
Definition pct_change (xs : list pyfloat) : list pyfloat :=
  match xs with
  | [] => []
  | _ :: rest => NaN :: zip_with (λ prev cur, fsub (fdiv cur prev) (Fin 1)) xs rest
  end.

(** [Series.where(cond, other)]: entries that fail [cond] become [other]. *)
Definition series_where (cond : pyfloat → bool) (other : pyfloat)
    (xs : list pyfloat) : list pyfloat :=
  (λ x, if cond x then x else other) <$> xs.

(** *** Rolling mean

    pandas keeps a running sum and a count of the observations in the
    window; entering values are added, leaving values removed, and missing
    values are skipped. *)

Record mean_state := MeanState { nobs : nat; sum_x : pyfloat }.

Definition add_mean (val : pyfloat) (st : mean_state) : mean_state :=
  if is_nan val then st
  else MeanState (S (nobs st)) (fadd (sum_x st) val).

Definition remove_mean (val : pyfloat) (st : mean_state) : mean_state :=
  if is_nan val then st
  else MeanState (Nat.pred (nobs st)) (fsub (sum_x st) val).

Definition calc_mean (minp : nat) (st : mean_state) : pyfloat :=
  if bool_decide (minp ≤ nobs st)%nat && bool_decide (0 < nobs st)%nat
  then fdiv (sum_x st) (Fin (Qc_of_Z (Z.of_nat (nobs st))))
  else NaN.

(** The loop over the positions [i], [i+1], ... that remain in [todo]; the
    window that ends at position [i] starts at [i + 1 - win]. *)
Fixpoint roll_mean (values : list pyfloat) (win minp : nat) (i : nat)
    (st : mean_state) (todo : list pyfloat) : list pyfloat :=
  match todo with
  | [] => []
  | val :: rest =>
      let st1 :=
        if bool_decide (win ≤ i)%nat
        then match values !! (i - win)%nat with
             | Some old => remove_mean old st
             | None => st
             end
        else st in
      let st2 := add_mean val st1 in
      calc_mean minp st2 :: roll_mean values win minp (S i) st2 rest
  end.

(** [Series.rolling(window).mean()]; [min_periods] defaults to the window.
    A negative window is refused, and a window of 0 is always empty. *)
Definition rolling_mean (window : Z) (values : list pyfloat)
    : pyresult (list pyfloat) :=
  if bool_decide (window < 0)%Z then Raise ValueError
  else if bool_decide (window = 0)%Z then Ok ((λ _, NaN) <$> values)
  else
    let win := Z.to_nat window in
    Ok (roll_mean values win win 0 (MeanState 0 (Fin 0)) values).

(** *** Exponentially weighted mean, [adjust=False]

    The span gives the centre of mass and the centre of mass the smoothing
    factor.  The loop starts from the first value, and leaves the average
    alone when the next value equals it. *)

Definition ewm_alpha (span : Z) : Qc :=
  let com := (Qc_of_Z span - 1) / 2 in
  1 / (1 + com).

Definition ewm_step (alpha weighted cur : Qc) : Qc :=
  let old_wt := 1 * (1 - alpha) in
  let new_wt := alpha in
  if bool_decide (weighted = cur) then weighted
  else (old_wt * weighted + new_wt * cur) / (old_wt + new_wt).

Fixpoint ewm_loop (alpha weighted : Qc) (todo : list Qc) : list Qc :=
  match todo with
  | [] => []
  | cur :: rest =>
      let weighted' := ewm_step alpha weighted cur in
      weighted' :: ewm_loop alpha weighted' rest
  end.

(** [Series.ewm(span=span, adjust=False).mean()]; a span below 1 is refused. *)
Definition ewm_mean (span : Z) (values : list Qc) : pyresult (list Qc) :=
  if bool_decide (span < 1)%Z then Raise ValueError
  else
    match values with
    | [] => Ok []
    | first :: rest => Ok (first :: ewm_loop (ewm_alpha span) first rest)
    end.

(** ** Technical indicators *)

(** [Series.tolist()] *)
Definition tolist (xs : list pyfloat) : pyobj := PyList (PyNum <$> xs).

(** The average gain and the average loss of the [rsi] branch. *)
Definition rsi_gain (window : Z) (prices : list pyfloat) : pyresult (list pyfloat) :=
  let delta := series_diff prices in
  rolling_mean window (series_where fgt0 (Fin 0) delta).

Definition rsi_loss (window : Z) (prices : list pyfloat) : pyresult (list pyfloat) :=
  let delta := series_diff prices in
  rolling_mean window (fneg <$> series_where flt0 (Fin 0) delta).

(** [100 - (100 / (1 + rs))] *)
Definition rsi_of_rs (rs : pyfloat) : pyfloat :=
  fsub (Fin (Qc_of_Z 100)) (fdiv (Fin (Qc_of_Z 100)) (fadd (Fin 1) rs)).

(** The body of the [try] block.  Each branch stores its outputs in [result]
    only after all its computations are done, so an exception leaves [result]
    empty. *)
Definition indicator_body `{Runtime} (price_data : list Qc) (indicator : string)
    (window : Z) (result : gmap string pyobj) : pyresult (gmap string pyobj) :=
  let prices := Fin <$> price_data in
  if (indicator =? "sma")%string then
    sma ← rolling_mean window prices;
    Ok (<["sma" := tolist sma]> result)
  else if (indicator =? "ema")%string then
    ema ← ewm_mean window price_data;
    Ok (<["ema" := tolist (Fin <$> ema)]> result)
  else if (indicator =? "rsi")%string then
    gain ← rsi_gain window prices;
    loss ← rsi_loss window prices;
    let rs := zip_with fdiv gain loss in
    let rsi := rsi_of_rs <$> rs in
    Ok (<["rsi" := tolist rsi]> result)
  else if (indicator =? "macd")%string then
    ema12 ← ewm_mean 12 price_data;
    ema26 ← ewm_mean 26 price_data;
    let macd := zip_with Qcminus ema12 ema26 in
    signal ← ewm_mean 9 macd;
    Ok (<["macd_signal" := tolist (Fin <$> signal)]>
          (<["macd" := tolist (Fin <$> macd)]> result))
  else if (indicator =? "volatility")%string then
    if bool_decide (window < 0)%Z then Raise ValueError
    else Ok (<["volatility" := tolist (rolling_std window (pct_change prices))]> result)
  else
    Ok (<["error" := PyVal (PyStr ("Unknown indicator: " +:+ indicator))]> result).

Definition calculate_technical_indicators `{Runtime} (price_data : list Qc)
    (indicator : string) (window : Z) : gmap string pyobj :=
  let result : gmap string pyobj := ∅ in
  match indicator_body price_data indicator window result with
  | Ok result' => result'
  | Raise e => <["error" := PyVal (PyStr (exn_str e))]> result
  end.

(** A runtime to run the definitions on.  Power is exact for the exponent 1
    and left undefined elsewhere, a message is the name of the exception, and
    the rolling deviation is left undefined. *)
Definition sample_runtime : Runtime := {|
  float_pow b e := if bool_decide (e = Fin 1) then inl b else inl NaN;
  exn_str e :=
    match e with
    | TypeError => "TypeError"
    | KeyError => "KeyError"
    | ValueError => "ValueError"
    | ZeroDivisionError => "ZeroDivisionError"
    end;
  rolling_std _ xs := (λ _, NaN) <$> xs;
|}.

(** * Vocabulary of the properties *)

(** ** Bundles *)

(** [data[src][key]], when [src] is a mapping that contains [key]. *)
Definition field (financial_data : gmap string pyobj) (src key : string)
    : option pyval :=
  match financial_data !! src with
  | Some (PyDict d) => d !! key
  | _ => None
  end.

(** Every source is a mapping. *)
Definition is_dict (obj : pyobj) : bool :=
  match obj with PyDict _ => true | _ => false end.

Definition sources_are_dicts (financial_data : gmap string pyobj) : Prop :=
  map_Forall (λ _ obj, is_dict obj) financial_data.

(** A FinancialDataBundle: every source is a mapping from field names to
    numbers; a field may also hold [None]. *)
Definition numeric_or_none (v : pyval) : bool :=
  match v with PyNone | PyNum _ => true | PyStr _ => false end.

Definition wf_source (obj : pyobj) : bool :=
  match obj with
  | PyDict d => bool_decide (map_Forall (λ _ v, numeric_or_none v) d)
  | _ => false
  end.

Definition well_formed (financial_data : gmap string pyobj) : Prop :=
  map_Forall (λ _ obj, wf_source obj) financial_data.

(** [key] is absent from every source of the list. *)
Definition absent (financial_data : gmap string pyobj) (key : string)
    (sources : list string) : Prop :=
  Forall (λ src, field financial_data src key = None) sources.


(** ** Sample inputs *)

Definition sample_bundle : gmap string pyobj :=
  {[ "income_statement" :=
       PyDict {[ "revenue" := num_of (Qc_of_Z 100);
                 "cost_of_goods_sold" := num_of (Qc_of_Z 60);
                 "net_income" := num_of (Qc_of_Z 20);
                 "shares_outstanding" := num_of (Qc_of_Z 80) ]};
     "balance_sheet" :=
       PyDict {[ "current_assets" := num_of (Qc_of_Z 30);
                 "current_liabilities" := num_of 0 ]};
     "market" :=
       PyDict {[ "price" := num_of (Qc_of_Z 10);
                 "shares_outstanding" := num_of (Qc_of_Z 50) ]} ]}.

(** ** Required fields and denominators *)

(** The fields that each branch of the chain reads, with the sources it may
    take them from.  An inner list is one way of computing the metric; only
    [ebitda] has two: the field of that name, or else the sum of three
    others. *)
Definition required_fields (indicator : string)
    : list (list (string * list string)) :=
  if (indicator =? "gross_margin")%string then
    [[("revenue", ["income_statement"]);
      ("cost_of_goods_sold", ["income_statement"])]]
  else if (indicator =? "operating_margin")%string then
    [[("revenue", ["income_statement"]);
      ("operating_income", ["income_statement"])]]
  else if (indicator =? "net_profit_margin")%string then
    [[("revenue", ["income_statement"]);
      ("net_income", ["income_statement"])]]
  else if (indicator =? "ebitda")%string then
    [[("ebitda", ["income_statement"])];
     [("operating_income", ["income_statement"]);
      ("depreciation", ["income_statement"; "cash_flow"]);
      ("amortization", ["income_statement"; "cash_flow"])]]
  else if (indicator =? "debt_to_equity")%string then
    [[("total_liabilities", ["balance_sheet"]);
      ("shareholders_equity", ["balance_sheet"])]]
  else if (indicator =? "current_ratio")%string then
    [[("current_assets", ["balance_sheet"]);
      ("current_liabilities", ["balance_sheet"])]]
  else if (indicator =? "quick_ratio")%string then
    [[("current_assets", ["balance_sheet"]);
      ("inventory", ["balance_sheet"]);
      ("current_liabilities", ["balance_sheet"])]]
  else if (indicator =? "book_value_per_share")%string then
    [[("shareholders_equity", ["balance_sheet"]);
      ("shares_outstanding", ["market"; "income_statement"])]]
  else if (indicator =? "free_cash_flow")%string then
    [[("operating_cash_flow", ["cash_flow"]);
      ("capital_expenditures", ["cash_flow"])]]
  else if (indicator =? "cash_flow_margin")%string then
    [[("operating_cash_flow", ["cash_flow"]);
      ("revenue", ["income_statement"])]]
  else if (indicator =? "roe")%string then
    [[("net_income", ["income_statement"]);
      ("shareholders_equity", ["balance_sheet"])]]
  else if (indicator =? "roa")%string then
    [[("net_income", ["income_statement"]);
      ("total_assets", ["balance_sheet"])]]
  else if (indicator =? "pe_ratio")%string then
    [[("price", ["market"]);
      ("net_income", ["income_statement"]);
      ("shares_outstanding", ["market"; "income_statement"])]]
  else if (indicator =? "pb_ratio")%string then
    [[("price", ["market"]);
      ("shareholders_equity", ["balance_sheet"]);
      ("shares_outstanding", ["market"; "income_statement"])]]
  else if (indicator =? "dividend_yield")%string then
    [[("dividends_per_share", ["income_statement"; "market"]);
      ("price", ["market"])]]
  else [].

(** A required field is missing: every way of computing the metric reads a
    field that is absent from all the sources it may come from. *)
Definition missing_required (financial_data : gmap string pyobj)
    (indicator : string) : Prop :=
  Forall (λ way, Exists (λ input, absent financial_data input.1 input.2) way)
         (required_fields indicator).

(** [denom] is [None] or zero. *)
Definition null_or_zero (denom : pyval) : bool :=
  is_none denom || py_eq0 denom.

(** The divisors in the formula of each metric: the second argument of each
    call of [safe_div], in the order of the calls.  [pe_ratio] and [pb_ratio]
    divide twice, and [ebitda] and [free_cash_flow] do not divide. *)
Definition denominators (financial_data : gmap string pyobj)
    (indicator : string) : list (pyresult pyval) :=
  let get := extract_value financial_data in
  if (indicator =? "gross_margin")%string then
    [get "revenue" ["income_statement"]]
  else if (indicator =? "operating_margin")%string then
    [get "revenue" ["income_statement"]]
  else if (indicator =? "net_profit_margin")%string then
    [get "revenue" ["income_statement"]]
  else if (indicator =? "debt_to_equity")%string then
    [get "shareholders_equity" ["balance_sheet"]]
  else if (indicator =? "current_ratio")%string then
    [get "current_liabilities" ["balance_sheet"]]
  else if (indicator =? "quick_ratio")%string then
    [get "current_liabilities" ["balance_sheet"]]
  else if (indicator =? "book_value_per_share")%string then
    [get "shares_outstanding" ["market"; "income_statement"]]
  else if (indicator =? "cash_flow_margin")%string then
    [get "revenue" ["income_statement"]]
  else if (indicator =? "roe")%string then
    [get "shareholders_equity" ["balance_sheet"]]
  else if (indicator =? "roa")%string then
    [get "total_assets" ["balance_sheet"]]
  else if (indicator =? "pe_ratio")%string then
    [get "shares_outstanding" ["market"; "income_statement"];
     (net_income ← get "net_income" ["income_statement"];
      shares_outstanding ← get "shares_outstanding" ["market"; "income_statement"];
      safe_div net_income shares_outstanding)]
  else if (indicator =? "pb_ratio")%string then
    [get "shares_outstanding" ["market"; "income_statement"];
     (shareholders_equity ← get "shareholders_equity" ["balance_sheet"];
      shares_outstanding ← get "shares_outstanding" ["market"; "income_statement"];
      safe_div shareholders_equity shares_outstanding)]
  else if (indicator =? "dividend_yield")%string then
    [get "price" ["market"]]
  else [].

(** A bundle whose revenue is a text instead of a number. *)
Definition text_bundle : gmap string pyobj :=
  {[ "income_statement" :=
       PyDict {[ "revenue" := PyStr "100";
                 "cost_of_goods_sold" := num_of (Qc_of_Z 60) ]} ]}.

(** ** Means and windows *)

Definition qsum (l : list Qc) : Qc := foldr Qcplus 0 l.

(** The arithmetic mean of a list. *)
Definition mean (l : list Qc) : Qc := qsum l / Qc_of_Z (Z.of_nat (length l)).

(** The [w] values [xs[i-w+1], ..., xs[i]]. *)
Definition trailing_window (w i : nat) (xs : list Qc) : list Qc :=
  take w (drop (i + 1 - w) xs).

(** The state of the rolling mean once the positions below [i] are done:
    the number and the sum of the last [w] values below [i]. *)
Definition window_state (w i : nat) (xs : list Qc) : mean_state :=
  MeanState (i `min` w) (Fin (qsum (drop (i - w) (take i xs)))).

(** ** Gains and losses *)

(** The series that the [rsi] branch averages, for finite prices: the rises
    and the falls between consecutive prices, with 0 where there is none and
    at the first position. *)
Definition rise (prev cur : Qc) : Qc :=
  if bool_decide (0 < cur - prev) then cur - prev else 0.

Definition fall (prev cur : Qc) : Qc :=
  - (if bool_decide (cur - prev < 0) then cur - prev else 0).

Definition gains (xs : list Qc) : list Qc :=
  match xs with
  | [] => []
  | _ :: rest => 0 :: zip_with rise xs rest
  end.

Definition losses (xs : list Qc) : list Qc :=
  match xs with
  | [] => []
  | _ :: rest => - 0 :: zip_with fall xs rest
  end.

(** A series that does not move. *)
Definition flat_prices : list Qc := [Qc_of_Z 5; Qc_of_Z 5; Qc_of_Z 5].

(** ** Growth *)

(** [(b ** e) - 1] for finite [b] and [e]. *)
Definition power_minus_one `{Runtime} (b e : Qc) : pyobj :=
  match float_pow (Fin b) (Fin e) with
  | inl r => PyVal (PyNum (fsub r (Fin 1)))
  | inr (re, im) => PyComplex (fsub re (Fin 1)) im
  end.

(** The growth from [prev] to [cur], as the specification words it:
    [(cur - prev) / abs(prev)], and [None] when [prev] is 0. *)
Definition period_rate (prev cur : Qc) : pyval :=
  if bool_decide (prev = 0) then PyNone
  else num_of ((cur - prev) / qabs prev).

Definition revenue_series : list Qc := [Qc_of_Z 100; Qc_of_Z 110; Qc_of_Z 99].

(** * Further vocabulary *)

(** ** Sources that cannot be read *)

(** [key in s] for a text [s]: [key] occurs in [s]. *)
Definition occurs (key s : string) : bool :=
  match String.index 0 key s with Some _ => true | None => false end.

(** The lookup of [key] passes over [src]: the bundle has no such source, or
    the source is a text in which [key] does not occur. *)
Definition passed_over (financial_data : gmap string pyobj) (key src : string)
    : Prop :=
  match financial_data !! src with
  | None => True
  | Some (PyVal (PyStr s)) => occurs key s = false
  | Some _ => False
  end.

(** Every lookup of the metric passes over every source it may read. *)
Definition unreadable (financial_data : gmap string pyobj) (indicator : string)
    : Prop :=
  Forall (λ way,
            Forall (λ input, Forall (passed_over financial_data input.1) input.2) way)
         (required_fields indicator).

(** The four sources that the resolver reads. *)
Definition statement_sources : list string :=
  ["income_statement"; "balance_sheet"; "cash_flow"; "market"].

(** A flat dict and a bundle whose statement is still a JSON text. *)
Definition flat_bundle : gmap string pyobj :=
  {[ "revenue" := PyVal (num_of (Qc_of_Z 100));
     "net_income" := PyVal (num_of (Qc_of_Z 20)) ]}.

Definition undecoded_bundle : gmap string pyobj :=
  {[ "income_statement" := PyVal (PyStr "{'Total Revenue': 100, 'Net Income': 20}") ]}.

Definition lowercase_bundle : gmap string pyobj :=
  {[ "income_statement" := PyVal (PyStr "{'revenue': 100, 'net_income': 20}") ]}.

(** A bundle whose market source lists the share count as null. *)
Definition null_shares_bundle : gmap string pyobj :=
  {[ "balance_sheet" := PyDict {[ "shareholders_equity" := num_of (Qc_of_Z 400) ]};
     "income_statement" := PyDict {[ "shares_outstanding" := num_of (Qc_of_Z 80);
                                     "net_income" := num_of (Qc_of_Z 20) ]};
     "market" := PyDict {[ "price" := num_of (Qc_of_Z 10);
                           "shares_outstanding" := PyNone ]} ]}.

(** A bundle that reports EBITDA and nothing else. *)
Definition reported_ebitda_bundle : gmap string pyobj :=
  {[ "income_statement" := PyDict {[ "ebitda" := num_of 0;
                                     "depreciation" := PyStr "n/a" ]} ]}.

(** A balance sheet with inventory. *)
Definition liquidity_bundle : gmap string pyobj :=
  {[ "balance_sheet" := PyDict {[ "current_assets" := num_of (Qc_of_Z 30);
                                  "inventory" := num_of (Qc_of_Z 12);
                                  "current_liabilities" := num_of (Qc_of_Z 20) ]} ]}.

(** The first lookup of each branch: the field and the source it tries
    first. *)
Definition first_lookup (indicator : string) : option (string * string) :=
  match required_fields indicator with
  | ((key, src :: _) :: _) :: _ => Some (key, src)
  | _ => None
  end.

(** * Trading signals

    [calculate_trading_opportunities] works on a pandas DataFrame.  A frame is
    a dict of columns over the default index; the function reads the "close"
    column and stores five columns of its own. *)

(** Comparisons of floats; each is false when an operand is [NaN]. *)
Definition flt (x y : pyfloat) : bool :=
  match x, y with
  | NaN, _ | _, NaN => false
  | Fin a, Fin b => bool_decide (a < b)
  | Inf s, Fin _ => s
  | Fin _, Inf t => negb t
  | Inf s, Inf t => s && negb t
  end.

Definition fle (x y : pyfloat) : bool :=
  match x, y with
  | NaN, _ | _, NaN => false
  | Fin a, Fin b => bool_decide (a ≤ b)
  | Inf s, Fin _ => s
  | Fin _, Inf t => negb t
  | Inf s, Inf t => s || negb t
  end.

(** A column holds numbers or something else (texts, dates). *)
Inductive column :=
  | NumCol (values : list pyfloat)
  | ObjCol (values : list string).

Global Instance column_eq_dec : EqDecision column.
Proof. solve_decision. Defined.

(** The exceptions of pandas that the function can let through. *)
Inductive pandas_error := PdKeyError | PdValueError | PdDataError.

Global Instance pandas_error_eq_dec : EqDecision pandas_error.
Proof. solve_decision. Defined.

Inductive frame_result (A : Type) :=
  | Done (a : A)
  | Fails (e : pandas_error).
Arguments Done {A} a.
Arguments Fails {A} e.

Global Instance frame_result_eq_dec `{EqDecision A} : EqDecision (frame_result A).
Proof. solve_decision. Defined.

Global Instance frame_result_ret : MRet frame_result := λ A a, Done a.
Global Instance frame_result_bind : MBind frame_result := λ A B f m,
  match m with
  | Done a => f a
  | Fails e => Fails e
  end.

(** [prices[name]] *)
Definition frame_getitem (prices : gmap string column) (name : string)
    : frame_result column :=
  match prices !! name with
  | Some col => Done col
  | None => Fails PdKeyError
  end.

(** [col.rolling(window=window).mean()]: [rolling] refuses a negative
    window, and [mean] refuses a column that is not numeric. *)
Definition rolling_column (col : column) (window : Z) : frame_result (list pyfloat) :=
  if bool_decide (window < 0)%Z then Fails PdValueError
  else
    match col with
    | NumCol values =>
        match rolling_mean window values with
        | Ok out => Done out
        | Raise _ => Fails PdValueError
        end
    | ObjCol _ => Fails PdDataError
    end.

(** [Series.shift(1)] *)
Definition series_shift (xs : list pyfloat) : list pyfloat :=
  take (length xs) (NaN :: xs).

(** [prices.loc[mask, 'signal'] = value] *)
Definition loc_assign (mask : list bool) (value : pyfloat) (signal : list pyfloat)
    : list pyfloat :=
  zip_with (λ (m : bool) s, if m then value else s) mask signal.

(** [(a > b) & (c <= d)] and [(a < b) & (c >= d)], row by row. *)
Definition crosses_above (short_ma long_ma prev_short prev_long : list pyfloat)
    : list bool :=
  zip_with andb (zip_with (λ s l, flt l s) short_ma long_ma)
                (zip_with fle prev_short prev_long).

Definition crosses_below (short_ma long_ma prev_short prev_long : list pyfloat)
    : list bool :=
  zip_with andb (zip_with flt short_ma long_ma)
                (zip_with (λ s l, fle l s) prev_short prev_long).

(** The signal column: 0 everywhere, then 1 at the rows of the first mask,
    then -1 at the rows of the second. *)
Definition signal_column (short_ma long_ma : list pyfloat) : list pyfloat :=
  let prev_short := series_shift short_ma in
  let prev_long := series_shift long_ma in
  let signal := replicate (length short_ma) (Fin 0) in
  let signal := loc_assign (crosses_above short_ma long_ma prev_short prev_long)
                           (Fin 1) signal in
  loc_assign (crosses_below short_ma long_ma prev_short prev_long)
             (Fin (- 1)) signal.

(** A column read back after its assignment is the column assigned, so the
    later statements use the values computed by the earlier ones. *)
Definition calculate_trading_opportunities (prices : gmap string column)
    (short_window long_window : Z) : frame_result (gmap string column) :=
  close ← frame_getitem prices "close";
  short_ma ← rolling_column close short_window;
  let prices := <["short_ma" := NumCol short_ma]> prices in
  close ← frame_getitem prices "close";
  long_ma ← rolling_column close long_window;
  let prices := <["long_ma" := NumCol long_ma]> prices in
  let prices := <["prev_short" := NumCol (series_shift short_ma)]> prices in
  let prices := <["prev_long" := NumCol (series_shift long_ma)]> prices in
  let prices := <["signal" := NumCol (signal_column short_ma long_ma)]> prices in
  Done prices.

(** The columns that the function writes. *)
Definition signal_columns : list string :=
  ["short_ma"; "long_ma"; "prev_short"; "prev_long"; "signal"].

(** A frame of closing prices with their dates. *)
Definition price_frame (xs : list Qc) : gmap string column :=
  {[ "date" := ObjCol ((λ _, "2024-01-01") <$> xs);
     "close" := NumCol (Fin <$> xs) ]}.

(** Prices that fall and then rise. *)
Definition valley_prices : list Qc :=
  [Qc_of_Z 5; Qc_of_Z 4; Qc_of_Z 3; Qc_of_Z 4; Qc_of_Z 6; Qc_of_Z 8].

(** The moving average of [xs] over the [w] rows that end at row [i]. *)
Definition average (w : Z) (i : nat) (xs : list Qc) : Qc :=
  mean (trailing_window (Z.to_nat w) i xs).

(** ** Ranges *)

(** [x] lies between [lo] and [hi]. *)
Definition within (lo hi x : Qc) : Prop := lo ≤ x ∧ x ≤ hi.

(** An output entry is undefined or a number between [lo] and [hi]. *)
Definition undefined_or_within (lo hi : Qc) (v : pyval) : Prop :=
  v = PyNum NaN ∨ ∃ r, v = num_of r ∧ within lo hi r.

(** The kinds of indicator that the engine knows. *)
Definition indicator_kinds : list string :=
  ["sma"; "ema"; "rsi"; "macd"; "volatility"].

(** Prices that rise, fall and rise again. *)
Definition zigzag_prices : list Qc :=
  [Qc_of_Z 10; Qc_of_Z 12; Qc_of_Z 11; Qc_of_Z 13; Qc_of_Z 13; Qc_of_Z 9].

(** ** Scaling *)

(** The series with every value multiplied by [c]. *)
Definition scaled (c : Qc) (xs : list Qc) : list Qc := (λ x, c * x) <$> xs.

(** Earnings that recover from a loss. *)
Definition recovery_series : list Qc :=
  [Qc_of_Z (-100); Qc_of_Z (-50); Qc_of_Z 25; Qc_of_Z 20].
(** * Properties of the metric resolver *)

Lemma well_formed_dicts fd : well_formed fd → sources_are_dicts fd.
Proof.
  intros Hwf src obj Hobj. specialize (Hwf src obj Hobj). simpl in *.
  by destruct obj.
Qed.

Lemma well_formed_field fd src key v :
  well_formed fd → field fd src key = Some v → numeric_or_none v.
Proof.
  unfold field. intros Hwf Hf.
  destruct (fd !! src) as [[| | |d]|] eqn:Hsrc; try done.
  specialize (Hwf src _ Hsrc). simpl in Hwf.
  apply bool_decide_unpack in Hwf. exact (Hwf key v Hf).
Qed.

(** One step of the loop of [extract_value] over a source that is a mapping
    or is missing. *)
Lemma extract_value_cons fd key src rest :
  sources_are_dicts fd →
  extract_value fd key (src :: rest) =
    match field fd src key with
    | Some v => Ok v
    | None => extract_value fd key rest
    end.
Proof.
  intros Hd. unfold field. simpl.
  destruct (fd !! src) as [obj|] eqn:Hsrc; [|done].
  specialize (Hd src obj Hsrc). destruct obj as [| | |d]; try done.
  simpl. destruct (d !! key) as [v|] eqn:Hk.
  - rewrite bool_decide_eq_true_2 by eauto. done.
  - rewrite bool_decide_eq_false_2 by (intros [? ?]; done). done.
Qed.

Lemma extract_value_absent fd key srcs :
  sources_are_dicts fd → absent fd key srcs →
  extract_value fd key srcs = Ok PyNone.
Proof.
  intros Hd. induction 1 as [|src rest Hsrc _ IH]; [done|].
  by rewrite extract_value_cons, Hsrc.
Qed.

Lemma extract_value_wf fd key srcs :
  well_formed fd →
  ∃ v, extract_value fd key srcs = Ok v ∧ numeric_or_none v.
Proof.
  intros Hwf. induction srcs as [|src rest IH]; [by exists PyNone|].
  rewrite extract_value_cons by by apply well_formed_dicts.
  destruct (field fd src key) as [v|] eqn:Hf; [|done].
  exists v. split; [done|]. by eapply well_formed_field.
Qed.

(** C5: the sources are tried in the order of the list, and the first one
    that contains the key gives the value: for a bundle whose sources are
    mappings, [extract_value] returns [data[s][key]] for the earliest source
    [s] of the list that contains [key], and [None] when no source of the
    list contains it. *)
Theorem extract_value_first_source fd key srcs :
  sources_are_dicts fd →
  (∀ pre s post v,
      srcs = pre ++ s :: post →
      (∀ s', s' ∈ pre → field fd s' key = None) →
      field fd s key = Some v →
      extract_value fd key srcs = Ok v)
  ∧ ((∀ s, s ∈ srcs → field fd s key = None) →
     extract_value fd key srcs = Ok PyNone).
Proof.
  intros Hd. split.
  - intros pre s post v -> Hpre Hs.
    induction pre as [|p pre IH]; simpl app.
    + by rewrite extract_value_cons, Hs.
    + rewrite extract_value_cons by done.
      rewrite (Hpre p) by set_solver. apply IH. set_solver.
  - intros Hnone. apply extract_value_absent; [done|].
    by apply Forall_forall.
Qed.

Lemma sample_bundle_well_formed : well_formed sample_bundle.
Proof. apply (bool_decide_unpack _). vm_compute. exact I. Defined.

Lemma extract_value_first_source_witness :
  extract_value sample_bundle "shares_outstanding" ["market"; "income_statement"]
  = Ok (num_of (Qc_of_Z 50)).
Proof.
  refine (proj1 (extract_value_first_source sample_bundle "shares_outstanding"
                   ["market"; "income_statement"] _)
            [] "market" ["income_statement"] _ eq_refl _ _).
  - apply (bool_decide_unpack _). vm_compute. exact I.
  - intros s' Hs'. inversion Hs'.
  - reflexivity.
Defined.

(** ** Examples *)

Example gross_margin_example :
  calculate_financial_metric sample_bundle "gross_margin"
  = Ok {[ "indicator" := PyVal (PyStr "gross_margin");
          "value" := PyVal (num_of (Qc_of_Z 2 / Qc_of_Z 5)) ]}.
Proof. apply (bool_decide_unpack _). vm_compute. exact I. Qed.

Example price_to_earnings_example :
  calculate_financial_metric sample_bundle "pe_ratio"
  = Ok {[ "indicator" := PyVal (PyStr "pe_ratio");
          "value" := PyVal (num_of (Qc_of_Z 25)) ]}.
Proof. apply (bool_decide_unpack _). vm_compute. exact I. Qed.

Example unknown_kind_example :
  calculate_technical_indicators (H:=sample_runtime) flat_prices "unknown" 14
  = {[ "error" := PyVal (PyStr "Unknown indicator: unknown") ]}.
Proof. apply (bool_decide_unpack _). vm_compute. exact I. Qed.

Example negative_window_example :
  calculate_technical_indicators (H:=sample_runtime) flat_prices "sma" (-1)
  = {[ "error" := PyVal (PyStr "ValueError") ]}.
Proof. apply (bool_decide_unpack _). vm_compute. exact I. Qed.

(** ** Unknown names *)

Lemma metric_value_unknown fd indicator :
  indicator ∉ supported_indicators → metric_value fd indicator = None.
Proof.
  unfold supported_indicators, metric_value. intros Hnot.
  rewrite !not_elem_of_cons in Hnot. destruct_and!.
  by rewrite !(proj2 (String.eqb_neq indicator _)).
Qed.

(** C4: for every bundle and every name outside the supported set, the
    resolver returns exactly the dict with the given name, a [None] value and
    the error text "Unknown indicator". *)
Theorem unknown_indicator fd indicator :
  indicator ∉ supported_indicators →
  calculate_financial_metric fd indicator =
    Ok {[ "indicator" := PyVal (PyStr indicator);
          "value" := PyVal PyNone;
          "error" := PyVal (PyStr "Unknown indicator") ]}.
Proof.
  intros Hnot. unfold calculate_financial_metric.
  by rewrite metric_value_unknown.
Qed.

Lemma unknown_indicator_witness :
  calculate_financial_metric sample_bundle "unknown_xyz" =
    Ok {[ "indicator" := PyVal (PyStr "unknown_xyz");
          "value" := PyVal PyNone;
          "error" := PyVal (PyStr "Unknown indicator") ]}.
Proof.
  apply (unknown_indicator sample_bundle "unknown_xyz").
  apply (bool_decide_unpack _). vm_compute. exact I.
Defined.

(** ** Missing inputs *)

Tactic Notation "step_chain" :=
  cbn [metric_value required_fields denominators String.eqb Ascii.eqb Bool.eqb].
Tactic Notation "step_chain" "in" hyp(H) :=
  cbn [metric_value required_fields denominators String.eqb Ascii.eqb Bool.eqb] in H.

Ltac unfold_branches :=
  unfold gross_margin, operating_margin, net_profit_margin, ebitda,
    debt_to_equity, current_ratio, quick_ratio, book_value_per_share,
    free_cash_flow, cash_flow_margin, roe, roa, pe_ratio, pb_ratio,
    dividend_yield.

(** Replace the remaining lookups by values that are numbers or [None]. *)
Ltac name_lookup fd Hwf k s :=
  let v := fresh "v" in
  let Hev := fresh "Hev" in
  let Hv := fresh "Hv" in
  destruct (extract_value_wf fd k s Hwf) as (v & Hev & Hv);
  rewrite ?Hev in *; clear Hev;
  destruct v; try done; clear Hv.

Ltac name_lookups fd Hwf :=
  repeat match goal with
  | |- context [extract_value fd ?k ?s] => name_lookup fd Hwf k s
  | H : context [extract_value fd ?k ?s] |- _ => name_lookup fd Hwf k s
  end.

(** Turn the absence of a field into the result of its lookup. *)
Ltac use_absent Hd :=
  repeat match goal with
  | H : absent ?fd ?k ?s |- _ => apply (extract_value_absent fd k s Hd) in H
  end.

Ltac crunch :=
  simpl;
  unfold safe_div, not_in_none_zero, py_truediv, py_sub, py_add, none_not_in in *;
  simpl in *;
  repeat (case_match; simplify_eq/=; try done).




(** ** Zero and missing denominators *)

Lemma safe_div_null_or_zero num denom :
  null_or_zero denom → safe_div num denom = Ok PyNone.
Proof.
  unfold safe_div, not_in_none_zero, null_or_zero. intros Hnz.
  destruct (is_none denom || py_eq0 denom); [|done].
  by rewrite andb_false_r.
Qed.



(** ** Exceptions *)

(** On a bundle the resolver always returns a dict. *)
Lemma metric_returns_on_bundles fd indicator :
  well_formed fd →
  ∃ result, calculate_financial_metric fd indicator = Ok result.
Proof.
  intros Hwf.
  destruct (decide (indicator ∈ supported_indicators)) as [Hin|Hnot];
    [|by unfold calculate_financial_metric; rewrite metric_value_unknown; eauto].
  unfold supported_indicators in Hin. unfold calculate_financial_metric.
  repeat (apply elem_of_cons in Hin as [-> | Hin]); [..|by apply elem_of_nil in Hin].
  all: step_chain; unfold_branches; name_lookups fd Hwf; crunch; eauto.
Qed.

(** The growth-rate calculator and the indicator engine return a dict by
    construction: their [try] blocks turn every exception into an "error"
    entry. *)
Lemma growth_rates_error_or_rates `{Runtime} series :
  (∃ e, calculate_growth_rates series = {[ "error" := PyVal (PyStr (exn_str e)) ]})
  ∨ (∃ annualized growth_rates,
        calculate_growth_rates series =
          {[ "annualized_growth_rate" := annualized;
             "period_growth_rates" := PyList growth_rates ]}).
Proof.
  unfold calculate_growth_rates.
  destruct (match series with [] => Ok [] | first :: rest => period_growth first rest end)
    as [growth_rates|e]; simpl; [|by left; eauto].
  destruct (annualized_growth series) as [annualized|e]; simpl;
    [right|left]; eauto.
Qed.

(** C3 (the code departs from it): the resolver has no [try] block, so a
    fault escapes: on a bundle whose revenue is the text "100",
    [gross_margin] subtracts a number from a text and the [TypeError] is
    raised to the caller instead of being reported in an "error" entry. *)
Theorem metric_raises_on_text_field :
  calculate_financial_metric text_bundle "gross_margin" = Raise TypeError.
Proof. apply (bool_decide_unpack _). vm_compute. exact I. Qed.

(** * Properties of the rolling mean *)

Lemma qsum_app l1 l2 : qsum (l1 ++ l2) = qsum l1 + qsum l2.
Proof.
  induction l1 as [|x l1 IH]; simpl; [by rewrite Qcplus_0_l|].
  rewrite IH. ring.
Qed.

Lemma Qc_of_nat_nonzero (n : nat) : (0 < n)%nat → Qc_of_Z (Z.of_nat n) ≠ 0.
Proof.
  intros Hn Heq. rewrite <-Z2Qc_inj_0 in Heq. apply Z2Qc_inj in Heq. lia.
Qed.

(** One turn of the loop moves the window one position to the right. *)
Lemma roll_mean_step (w i : nat) (xs : list Qc) (x : Qc) :
  (1 ≤ w)%nat → xs !! i = Some x →
  add_mean (Fin x)
    (if bool_decide (w ≤ i)%nat
     then match (Fin <$> xs) !! (i - w)%nat with
          | Some old => remove_mean old (window_state w i xs)
          | None => window_state w i xs
          end
     else window_state w i xs)
  = window_state w (S i) xs.
Proof.
  intros Hw Hx. unfold window_state.
  pose proof (lookup_lt_Some _ _ _ Hx) as Hlen.
  rewrite (take_S_r _ _ _ Hx).
  case_bool_decide as Hwi.
  - destruct (lookup_lt_is_Some_2 xs (i - w)%nat) as [old Hold]; [lia|].
    rewrite list_lookup_fmap, Hold.
    unfold add_mean, remove_mean.
    cbn [option_fmap option_map fmap is_nan nobs sum_x fsub fadd fneg].
    f_equal; [lia|]. f_equal.
    rewrite drop_app_le by (rewrite length_take; lia).
    rewrite qsum_app.
    assert (take i xs !! (i - w)%nat = Some old) as Htake
      by (rewrite lookup_take_lt by lia; done).
    rewrite (drop_S _ _ _ Htake).
    replace (S i - w)%nat with (S (i - w))%nat by lia.
    simpl. ring.
  - unfold add_mean. cbn [is_nan nobs sum_x fadd]. f_equal; [lia|]. f_equal.
    replace (i - w)%nat with 0%nat by lia.
    replace (S i - w)%nat with 0%nat by lia.
    rewrite !drop_0, qsum_app. simpl. ring.
Qed.

Lemma roll_mean_lookup (w : nat) (xs : list Qc) :
  (1 ≤ w)%nat →
  ∀ todo i k,
    drop i xs = todo → (k < length todo)%nat →
    roll_mean (Fin <$> xs) w w i (window_state w i xs) (Fin <$> todo) !! k
    = Some (calc_mean w (window_state w (S (i + k)) xs)).
Proof.
  intros Hw todo. induction todo as [|x rest IH]; intros i k Hdrop Hk;
    [simpl in Hk; lia|].
  assert (xs !! i = Some x) as Hx.
  { rewrite <-(Nat.add_0_r i), <-lookup_drop, Hdrop. done. }
  assert (drop (S i) xs = rest) as Hrest.
  { replace (S i) with (i + 1)%nat by lia. by rewrite <-drop_drop, Hdrop. }
  cbn [fmap list_fmap roll_mean].
  rewrite (roll_mean_step w i xs x Hw Hx).
  destruct k as [|k]; simpl.
  - by rewrite Nat.add_0_r.
  - fold (fmap (M:=list) Fin rest).
    rewrite (IH (S i) k Hrest) by (simpl in Hk; lia).
    do 3 f_equal. lia.
Qed.

Lemma roll_mean_length values w minp i st todo :
  length (roll_mean values w minp i st todo) = length todo.
Proof.
  revert i st. induction todo as [|x rest IH]; intros i st; simpl; [done|].
  by rewrite IH.
Qed.

(** The mean that the loop reports at position [i]. *)
Lemma calc_mean_window (w i : nat) (xs : list Qc) :
  (1 ≤ w)%nat → (i < length xs)%nat →
  calc_mean w (window_state w (S i) xs) =
    if bool_decide (w ≤ i + 1)%nat
    then Fin (mean (trailing_window w i xs))
    else NaN.
Proof.
  intros Hw Hi. unfold calc_mean, window_state, mean, trailing_window.
  cbn [nobs sum_x].
  case_bool_decide as Hwi.
  - rewrite bool_decide_eq_true_2 by lia.
    rewrite bool_decide_eq_true_2 by lia. cbn [andb fdiv].
    rewrite bool_decide_eq_false_2 by (apply Qc_of_nat_nonzero; lia).
    rewrite length_take, length_drop.
    rewrite take_drop_commute.
    assert (w ≤ S i)%nat as Hle by lia.
    replace (i + 1 - w + w)%nat with (S i) by lia.
    replace (S i - w)%nat with (i + 1 - w)%nat by lia.
    do 3 f_equal. lia.
  - cbn [andb]. by rewrite (bool_decide_eq_false_2 (w ≤ i + 1)%nat) by lia.
Qed.

Lemma rolling_mean_finite (window : Z) (xs : list Qc) :
  (1 ≤ window)%Z →
  ∃ out,
    rolling_mean window (Fin <$> xs) = Ok out
    ∧ length out = length xs
    ∧ ∀ i, (i < length xs)%nat →
        out !! i = Some (if bool_decide (Z.to_nat window ≤ i + 1)%nat
                         then Fin (mean (trailing_window (Z.to_nat window) i xs))
                         else NaN).
Proof.
  intros Hw. unfold rolling_mean.
  rewrite bool_decide_eq_false_2 by lia.
  rewrite bool_decide_eq_false_2 by lia.
  eexists. split; [done|]. split.
  - by rewrite roll_mean_length, length_fmap.
  - intros i Hi.
    change (MeanState 0 (Fin 0)) with (window_state (Z.to_nat window) 0 xs).
    rewrite (roll_mean_lookup (Z.to_nat window) xs) by (done || lia).
    by rewrite calc_mean_window by lia.
Qed.

(** * Properties of the exponentially weighted mean *)

Lemma Qc_of_Z_pos (n : Z) : (0 < n)%Z → 0 < Qc_of_Z n.
Proof. intros Hn. rewrite <-Z2Qc_inj_0. exact (proj1 (Z2Qc_inj_lt 0 n) Hn). Qed.

(** The smoothing factor of a span is [2/(span+1)]. *)
Lemma ewm_alpha_span (span : Z) :
  (1 ≤ span)%Z → ewm_alpha span = 2 / (Qc_of_Z span + 1).
Proof.
  intros Hspan. unfold ewm_alpha.
  assert (Qc_of_Z span + 1 ≠ 0) as Hne.
  { rewrite <-Z2Qc_inj_1, <-Z2Qc_inj_add.
    apply not_eq_sym, Qclt_not_eq. apply Qc_of_Z_pos. lia. }
  field. split; [exact Hne|]. intros Heq. by apply (f_equal this) in Heq.
Qed.

(** One turn of the loop is one step of the recurrence. *)
Lemma ewm_step_recurrence (alpha weighted cur : Qc) :
  ewm_step alpha weighted cur = alpha * cur + (1 - alpha) * weighted.
Proof.
  unfold ewm_step. case_bool_decide as Heq.
  - subst. ring.
  - replace (1 * (1 - alpha) + alpha) with 1 by ring.
    rewrite (right_id 1 Qcdiv). ring.
Qed.

Lemma ewm_loop_length alpha weighted todo :
  length (ewm_loop alpha weighted todo) = length todo.
Proof.
  revert weighted. induction todo as [|x rest IH]; intros weighted; simpl; [done|].
  by rewrite IH.
Qed.

Lemma ewm_loop_lookup alpha todo :
  ∀ weighted i y x,
    (weighted :: ewm_loop alpha weighted todo) !! i = Some y →
    todo !! i = Some x →
    ewm_loop alpha weighted todo !! i = Some (alpha * x + (1 - alpha) * y).
Proof.
  induction todo as [|cur rest IH]; intros weighted i y x Hy Hx; [done|].
  destruct i as [|i]; simpl in *.
  - simplify_eq. by rewrite ewm_step_recurrence.
  - by apply IH.
Qed.

(** * Gains and losses of finite prices *)

Lemma where_rise (l k : list Qc) :
  series_where fgt0 (Fin 0) (zip_with (λ prev cur, fsub cur prev) (Fin <$> l) (Fin <$> k))
  = Fin <$> zip_with rise l k.
Proof.
  revert k. induction l as [|p l IH]; intros [|c k]; try done.
  unfold series_where in *. cbn [fmap list_fmap zip_with]. f_equal; [|apply IH].
  unfold rise, fsub, fgt0, fadd, fneg, Qcminus. by case_bool_decide.
Qed.

Lemma where_fall (l k : list Qc) :
  fneg <$> series_where flt0 (Fin 0)
             (zip_with (λ prev cur, fsub cur prev) (Fin <$> l) (Fin <$> k))
  = Fin <$> zip_with fall l k.
Proof.
  revert k. induction l as [|p l IH]; intros [|c k]; try done.
  unfold series_where in *. cbn [fmap list_fmap zip_with]. f_equal; [|apply IH].
  unfold fall, fsub, flt0, fadd, fneg, Qcminus. by case_bool_decide.
Qed.

Lemma where_gains (xs : list Qc) :
  series_where fgt0 (Fin 0) (series_diff (Fin <$> xs)) = Fin <$> gains xs.
Proof.
  destruct xs as [|x rest]; [done|].
  unfold series_diff, gains. cbn [fmap list_fmap].
  change (Fin x :: list_fmap Qc pyfloat Fin rest) with (Fin <$> x :: rest).
  unfold series_where at 1. cbn [fmap list_fmap fgt0]. f_equal.
  apply (where_rise (x :: rest) rest).
Qed.

Lemma where_losses (xs : list Qc) :
  fneg <$> series_where flt0 (Fin 0) (series_diff (Fin <$> xs)) = Fin <$> losses xs.
Proof.
  destruct xs as [|x rest]; [done|].
  unfold series_diff, losses. cbn [fmap list_fmap].
  change (Fin x :: list_fmap Qc pyfloat Fin rest) with (Fin <$> x :: rest).
  unfold series_where at 1. cbn [fmap list_fmap flt0 fneg]. f_equal.
  apply (where_fall (x :: rest) rest).
Qed.

Lemma gains_length xs : length (gains xs) = length xs.
Proof.
  destruct xs as [|x rest]; [done|]. unfold gains. cbn [length].
  rewrite length_zip_with. cbn [length]. lia.
Qed.

Lemma losses_length xs : length (losses xs) = length xs.
Proof.
  destruct xs as [|x rest]; [done|]. unfold losses. cbn [length].
  rewrite length_zip_with. cbn [length]. lia.
Qed.

Lemma rise_nonneg prev cur : 0 ≤ rise prev cur.
Proof.
  unfold rise. case_bool_decide; [by apply Qclt_le_weak|done].
Qed.

Lemma gains_nonneg xs : Forall (λ g, 0 ≤ g) (gains xs).
Proof.
  destruct xs as [|x rest]; [by constructor|]. unfold gains.
  constructor; [done|].
  generalize (x :: rest) as l. intros l. revert l.
  induction rest as [|c rest IH]; intros [|p l]; simpl; try by constructor.
  constructor; [apply rise_nonneg|apply IH].
Qed.

Lemma qsum_nonneg l : Forall (λ x, 0 ≤ x) l → 0 ≤ qsum l.
Proof.
  induction 1 as [|x l Hx _ IH]; simpl; [done|].
  by apply Qcplus_nonneg_nonneg.
Qed.

Lemma mean_nonneg l : Forall (λ x, 0 ≤ x) l → 0 ≤ mean l.
Proof.
  intros Hl. unfold mean, Qcdiv.
  destruct l as [|x l]; [done|].
  apply Qcmult_nonneg_nonneg; [by apply qsum_nonneg|].
  apply Qclt_le_weak, Qcinv_pos, Qc_of_Z_pos. simpl. lia.
Qed.

(** * Properties of the indicator engine *)

Section indicators.
Context `{Runtime}.



(** C10: the "macd" branch does not read the window: for every series
    and any two windows the results are equal, and they hold the difference
    of the means of spans 12 and 26 under "macd" and the mean of span 9 of
    that difference under "macd_signal". *)
Theorem macd_ignores_window (price_data : list Qc) (w1 w2 : Z) :
  calculate_technical_indicators price_data "macd" w1
    = calculate_technical_indicators price_data "macd" w2
  ∧ ∃ ema12 ema26 signal,
      ewm_mean 12 price_data = Ok ema12
      ∧ ewm_mean 26 price_data = Ok ema26
      ∧ ewm_mean 9 (zip_with Qcminus ema12 ema26) = Ok signal
      ∧ calculate_technical_indicators price_data "macd" w1
          = {[ "macd_signal" := PyList (num_of <$> signal);
               "macd" := PyList (num_of <$> zip_with Qcminus ema12 ema26) ]}.
Proof.
  split; [reflexivity|].
  unfold calculate_technical_indicators, indicator_body.
  cbn [String.eqb Ascii.eqb Bool.eqb].
  assert (∀ span xs, (1 ≤ span)%Z → ∃ out, ewm_mean span xs = Ok out) as Hewm.
  { intros span xs Hspan. unfold ewm_mean.
    rewrite bool_decide_eq_false_2 by lia. destruct xs; eauto. }
  destruct (Hewm 12%Z price_data) as [ema12 H12]; [lia|].
  destruct (Hewm 26%Z price_data) as [ema26 H26]; [lia|].
  destruct (Hewm 9%Z (zip_with Qcminus ema12 ema26)) as [signal H9]; [lia|].
  exists ema12, ema26, signal. rewrite H12, H26. simpl. rewrite H9. simpl.
  unfold tolist. by rewrite <-!list_fmap_compose.
Qed.

(** The value of the index when the average loss is zero. *)
Lemma rsi_of_zero_loss (g : Qc) :
  0 ≤ g →
  rsi_of_rs (fdiv (Fin g) (Fin 0)) = if bool_decide (g = 0) then NaN else Fin (Qc_of_Z 100).
Proof.
  intros Hg. unfold rsi_of_rs, fdiv.
  rewrite (bool_decide_eq_true_2 (0 = 0)) by done.
  case_bool_decide as Hg0; [done|].
  rewrite bool_decide_eq_false_2 by by apply Qcle_not_lt.
  unfold fadd, fdiv, fsub, fneg, fadd. f_equal. ring.
Qed.

(** C9, as the code has it: at every position where the average loss over
    the window is 0, the average gain is a number [g >= 0]; the index is
    100 when [g] is positive, and it is the undefined value [NaN] when [g]
    is 0 as well, that is when the prices did not move over the window. *)
Theorem rsi_zero_loss (price_data : list Qc) (window : Z) loss (i : nat) :
  rsi_loss window (Fin <$> price_data) = Ok loss →
  loss !! i = Some (Fin 0) →
  ∃ gain g rsi,
    rsi_gain window (Fin <$> price_data) = Ok gain
    ∧ gain !! i = Some (Fin g)
    ∧ 0 ≤ g
    ∧ calculate_technical_indicators price_data "rsi" window
        = {[ "rsi" := PyList rsi ]}
    ∧ rsi !! i = Some (PyNum (if bool_decide (g = 0) then NaN else Fin (Qc_of_Z 100))).
Proof.
  intros Hloss Hi.
  unfold calculate_technical_indicators, indicator_body.
  cbn [String.eqb Ascii.eqb Bool.eqb]. rewrite Hloss.
  unfold rsi_loss, rsi_gain in *. rewrite where_losses in Hloss.
  rewrite where_gains.
  destruct (decide (1 ≤ window)%Z) as [Hw|Hw].
  - destruct (rolling_mean_finite window (losses price_data) Hw)
      as (lout & Hl & Hllen & Hllook).
    destruct (rolling_mean_finite window (gains price_data) Hw)
      as (gout & Hg & Hglen & Hglook).
    rewrite Hl in Hloss. injection Hloss as <-. rewrite Hg.
    pose proof (lookup_lt_Some _ _ _ Hi) as Hlt.
    rewrite Hllen, losses_length in Hlt.
    pose proof (Hllook i) as Hli. rewrite losses_length in Hli.
    specialize (Hli Hlt). rewrite Hli in Hi.
    specialize (Hglook i). rewrite gains_length in Hglook.
    specialize (Hglook Hlt).
    case_bool_decide as Hwi; [|done].
    exists gout, (mean (trailing_window (Z.to_nat window) i (gains price_data))).
    eexists. split; [done|]. split; [done|].
    assert (0 ≤ mean (trailing_window (Z.to_nat window) i (gains price_data))) as Hnn.
    { apply mean_nonneg, Forall_take, Forall_drop, gains_nonneg. }
    split; [done|]. split; [reflexivity|].
    rewrite !list_lookup_fmap, lookup_zip_with, Hglook, Hli.
    assert (mean (trailing_window (Z.to_nat window) i (losses price_data)) = 0)
      as -> by congruence.
    cbn [mbind option_bind fmap option_fmap option_map].
    by rewrite rsi_of_zero_loss.
  - exfalso. unfold rolling_mean in Hloss.
    case_bool_decide; [done|]. case_bool_decide; [|lia].
    injection Hloss as <-. rewrite list_lookup_fmap in Hi.
    by destruct (_ !! i).
Qed.
End indicators.



(** C9, as stated, fails on prices that do not move: with the prices 5, 5, 5
    and the window 2 the average loss at position 1 is 0, and the index
    there is the undefined value [NaN], not 100. *)
Lemma rsi_flat_prices_counterexample :
  ∃ loss rsi,
    rsi_loss 2 (Fin <$> flat_prices) = Ok loss
    ∧ calculate_technical_indicators (H:=sample_runtime) flat_prices "rsi" 2
        = {[ "rsi" := PyList rsi ]}
    ∧ loss !! 1%nat = Some (Fin 0)
    ∧ rsi !! 1%nat = Some (PyNum NaN)
    ∧ rsi !! 1%nat ≠ Some (num_of (Qc_of_Z 100)).
Proof.
  exists [NaN; Fin 0; Fin 0], [PyNum NaN; PyNum NaN; PyNum NaN].
  split; [by apply (bool_decide_unpack _); vm_compute|].
  split; [by apply (bool_decide_unpack _); vm_compute|].
  by repeat split.
Qed.

Lemma rsi_zero_loss_witness :
  ∃ gain g rsi,
    rsi_gain 2 (Fin <$> [Qc_of_Z 5; Qc_of_Z 6; Qc_of_Z 7]) = Ok gain
    ∧ gain !! 2%nat = Some (Fin g)
    ∧ 0 ≤ g
    ∧ calculate_technical_indicators (H:=sample_runtime) [Qc_of_Z 5; Qc_of_Z 6; Qc_of_Z 7] "rsi" 2
        = {[ "rsi" := PyList rsi ]}
    ∧ rsi !! 2%nat = Some (PyNum (if bool_decide (g = 0) then NaN else Fin (Qc_of_Z 100))).
Proof.
  apply (rsi_zero_loss (H:=sample_runtime) [Qc_of_Z 5; Qc_of_Z 6; Qc_of_Z 7] 2 [NaN; Fin 0; Fin 0] 2).
  - apply (bool_decide_unpack _). vm_compute. exact I.
  - reflexivity.
Defined.


(** * Properties of the growth-rate calculator *)

Lemma qabs_nonzero x : x ≠ 0 → qabs x ≠ 0.
Proof.
  unfold qabs. intros Hx. case_bool_decide; [|done].
  intros Heq. apply Hx. rewrite <-(Qcopp_involutive x), Heq. ring.
Qed.

Lemma growth_of_numbers (prev cur : Qc) :
  (if py_ne0 (num_of prev)
   then diff ← py_sub (num_of cur) (num_of prev);
        a ← py_abs (num_of prev);
        py_truediv diff a
   else Ok PyNone)
  = Ok (period_rate prev cur).
Proof.
  unfold period_rate, py_ne0, num_of, py_eq0, feq0.
  case_bool_decide as Hprev; [done|].
  cbn [negb py_sub py_abs fabs mbind pyresult_bind].
  unfold py_truediv, feq0, fdiv, fsub, fadd, fneg.
  by rewrite !bool_decide_eq_false_2 by by apply qabs_nonzero.
Qed.

Lemma period_growth_numbers (prev : Qc) (rest : list Qc) :
  period_growth (num_of prev) (num_of <$> rest)
  = Ok (zip_with period_rate (prev :: rest) rest).
Proof.
  revert prev. induction rest as [|cur rest IH]; intros prev; [done|].
  cbn [fmap list_fmap period_growth zip_with].
  fold (fmap (M:=list) num_of rest).
  by rewrite IH, growth_of_numbers.
Qed.

Lemma last_numbers (xs : list Qc) (final : Qc) :
  last xs = Some final → List.last (num_of <$> xs) PyNone = num_of final.
Proof.
  induction xs as [|x [|y xs] IH]; intros Hlast; [done|by simplify_eq/=|].
  apply IH. exact Hlast.
Qed.

Section growth.
Context `{Runtime}.

Lemma annualized_growth_numbers (first second final : Qc) (rest : list Qc) :
  last (first :: second :: rest) = Some final →
  annualized_growth (num_of <$> first :: second :: rest)
  = Ok (if bool_decide (first = 0) then PyVal PyNone
        else power_minus_one (final / first)
               (1 / Qc_of_Z (Z.of_nat (length (first :: second :: rest)) - 1))).
Proof.
  intros Hlast. unfold annualized_growth.
  rewrite (last_numbers _ final Hlast), length_fmap.
  cbn [fmap list_fmap]. unfold py_ne0, num_of, py_eq0, feq0.
  case_bool_decide as Hfirst; [done|]. cbn [negb].
  unfold py_truediv, feq0, fdiv. rewrite !bool_decide_eq_false_2 by done.
  unfold power_minus_one, annual_exponent. simpl.
  by destruct (float_pow _ _) as [r|[re im]].
Qed.

Lemma growth_rates_numbers_long (first second : Qc) (rest : list Qc) final :
  last (first :: second :: rest) = Some final →
  calculate_growth_rates (num_of <$> first :: second :: rest)
  = {[ "annualized_growth_rate" :=
         (if bool_decide (first = 0) then PyVal PyNone
          else power_minus_one (final / first)
                 (1 / Qc_of_Z (Z.of_nat (length (first :: second :: rest)) - 1)));
       "period_growth_rates" :=
         PyList (zip_with period_rate (first :: second :: rest) (second :: rest)) ]}.
Proof.
  intros Hlast. unfold calculate_growth_rates.
  rewrite (annualized_growth_numbers first second final rest Hlast).
  change (num_of <$> first :: second :: rest)
    with (num_of first :: (num_of <$> second :: rest)).
  cbv beta iota.
  by rewrite period_growth_numbers.
Qed.

Lemma growth_rates_example :
  calculate_growth_rates (num_of <$> revenue_series)
  = {[ "annualized_growth_rate" := power_minus_one (Qc_of_Z 99 / Qc_of_Z 100) (1 / Qc_of_Z 2);
       "period_growth_rates" :=
         PyList [num_of (Qc_of_Z 1 / Qc_of_Z 10); num_of (- (Qc_of_Z 1 / Qc_of_Z 10))] ]}.
Proof.
  unfold revenue_series.
  rewrite (growth_rates_numbers_long _ _ _ (Qc_of_Z 99)) by done.
  rewrite bool_decide_eq_false_2 by (by apply (bool_decide_unpack _)).
  assert (zip_with period_rate [Qc_of_Z 100; Qc_of_Z 110; Qc_of_Z 99] [Qc_of_Z 110; Qc_of_Z 99]
          = [num_of (Qc_of_Z 1 / Qc_of_Z 10); num_of (- (Qc_of_Z 1 / Qc_of_Z 10))]) as ->
    by (by apply (bool_decide_unpack _); vm_compute).
  done.
Qed.

End growth.

(** * Further properties of the metric resolver *)



Lemma Qcdiv_nonzero (x y : Qc) : x ≠ 0 → y ≠ 0 → x / y ≠ 0.
Proof.
  intros Hx Hy Heq. unfold Qcdiv in Heq.
  apply Qcmult_integral in Heq as [Heq|Heq]; [done|].
  apply Hy. rewrite <-(Qcmult_1_r y), <-(Qcmult_inv_r y Hy), Heq. ring.
Qed.

(** A division of two finite numbers by [safe_div]. *)
Lemma safe_div_numbers (x y : Qc) :
  y ≠ 0 → safe_div (num_of x) (num_of y) = Ok (num_of (x / y)).
Proof.
  intros Hy. unfold safe_div, not_in_none_zero, py_truediv, num_of. simpl.
  by rewrite !bool_decide_eq_false_2.
Qed.



(** A lookup in a single source that is a mapping. *)
Lemma extract_value_field fd key src rest v :
  sources_are_dicts fd → field fd src key = Some v →
  extract_value fd key (src :: rest) = Ok v.
Proof. intros Hd Hf. by rewrite extract_value_cons, Hf. Qed.

(** Lookups in mappings never raise. *)
Lemma extract_value_returns fd key srcs :
  sources_are_dicts fd → ∃ v, extract_value fd key srcs = Ok v.
Proof.
  intros Hd. induction srcs as [|src rest IH]; [by eexists|].
  rewrite extract_value_cons by done. destruct (field fd src key); eauto.
Qed.

(** Replace the lookups by the values they return. *)
Ltac name_dict_lookups Hd :=
  repeat match goal with
  | |- context [extract_value ?fd ?k ?s] =>
      let v := fresh "v" in
      destruct (extract_value_returns fd k s Hd) as [v ->]
  end.



(** X4: A reported EBITDA is returned as it is: when the income statement has an
    "ebitda" entry that is not [None] (0 included), that entry is the value,
    and the fallback fields are not read, whatever they hold. *)
Theorem reported_ebitda_wins fd v :
  sources_are_dicts fd →
  field fd "income_statement" "ebitda" = Some v →
  v ≠ PyNone →
  calculate_financial_metric fd "ebitda"
    = Ok {[ "indicator" := PyVal (PyStr "ebitda"); "value" := PyVal v ]}.
Proof.
  intros Hd Hf Hv. unfold calculate_financial_metric. step_chain.
  unfold ebitda. rewrite (extract_value_field fd _ _ [] _ Hd Hf).
  cbn [mbind pyresult_bind]. by destruct v.
Qed.

Lemma reported_ebitda_wins_witness :
  calculate_financial_metric reported_ebitda_bundle "ebitda"
  = Ok {[ "indicator" := PyVal (PyStr "ebitda"); "value" := PyVal (num_of 0) ]}.
Proof.
  apply (reported_ebitda_wins reported_ebitda_bundle (num_of 0)).
  - apply (bool_decide_unpack _). vm_compute. exact I.
  - reflexivity.
  - discriminate.
Defined.

(** X5: A null in the first source hides the later ones: when the market source
    lists "shares_outstanding" as [None], the three per-share metrics are
    [None] even if the income statement has a share count. *)
Theorem null_share_count_hides_fallback fd indicator :
  sources_are_dicts fd →
  field fd "market" "shares_outstanding" = Some PyNone →
  indicator ∈ ["book_value_per_share"; "pe_ratio"; "pb_ratio"] →
  calculate_financial_metric fd indicator
    = Ok {[ "indicator" := PyVal (PyStr indicator); "value" := PyVal PyNone ]}.
Proof.
  intros Hd Hf Hin. unfold calculate_financial_metric.
  repeat (apply elem_of_cons in Hin as [-> | Hin]); [..|by apply elem_of_nil in Hin].
  all: step_chain; unfold_branches.
  all: rewrite (extract_value_field _ _ "market" ["income_statement"] _ Hd Hf).
  all: name_dict_lookups Hd.
  all: cbn [mbind pyresult_bind].
  all: unfold safe_div, not_in_none_zero; cbn [is_none orb negb andb].
  all: by rewrite ?andb_false_r.
Qed.

Lemma null_share_count_hides_fallback_witness :
  calculate_financial_metric null_shares_bundle "book_value_per_share"
  = Ok {[ "indicator" := PyVal (PyStr "book_value_per_share");
          "value" := PyVal PyNone ]}.
Proof.
  apply (null_share_count_hides_fallback null_shares_bundle "book_value_per_share").
  - apply (bool_decide_unpack _). vm_compute. exact I.
  - reflexivity.
  - apply (bool_decide_unpack _). vm_compute. exact I.
Defined.

(** ** Sources that are not mappings *)

Lemma extract_value_passed_over fd key srcs :
  Forall (passed_over fd key) srcs → extract_value fd key srcs = Ok PyNone.
Proof.
  induction 1 as [|src rest Hsrc _ IH]; [done|].
  unfold passed_over in Hsrc. simpl.
  destruct (fd !! src) as [[[| |s]| | |]|]; try done.
  simpl. unfold occurs in Hsrc. by destruct (index 0 key s).
Qed.

Lemma extract_value_text_raises fd key src rest s :
  fd !! src = Some (PyVal (PyStr s)) → occurs key s = true →
  extract_value fd key (src :: rest) = Raise TypeError.
Proof.
  intros Hsrc Hocc. simpl. rewrite Hsrc. simpl.
  unfold occurs in Hocc. by destruct (index 0 key s).
Qed.

Ltac skip_lookups :=
  repeat (match goal with
          | |- context [extract_value ?fd ?k ?s] =>
              rewrite (extract_value_passed_over fd k s)
                by assumption
          end;
          cbn [mbind pyresult_bind]).

(** X6: A bundle that the resolver cannot read gives [None] without any error:
    when each source that a metric may read is missing from the dict (a flat
    dict of fields, for instance) or is a text in which the field name does
    not occur (an undecoded JSON document), the value is [None]. *)
Theorem unreadable_sources_give_none fd indicator :
  indicator ∈ supported_indicators →
  unreadable fd indicator →
  calculate_financial_metric fd indicator
    = Ok {[ "indicator" := PyVal (PyStr indicator); "value" := PyVal PyNone ]}.
Proof.
  intros Hin Hun. unfold supported_indicators in Hin.
  unfold unreadable in Hun. unfold calculate_financial_metric.
  repeat (apply elem_of_cons in Hin as [-> | Hin]); [..|by apply elem_of_nil in Hin].
  all: step_chain; step_chain in Hun.
  all: rewrite ?Forall_cons, ?Forall_nil in Hun; cbn [fst snd] in Hun.
  all: destruct_and?.
  all: unfold_branches; skip_lookups.
  all: done.
Qed.

Lemma unreadable_sources_give_none_witness :
  calculate_financial_metric flat_bundle "net_profit_margin"
  = Ok {[ "indicator" := PyVal (PyStr "net_profit_margin"); "value" := PyVal PyNone ]}.
Proof.
  apply (unreadable_sources_give_none flat_bundle "net_profit_margin").
  - apply (bool_decide_unpack _). vm_compute. exact I.
  - unfold unreadable. step_chain.
    repeat (apply Forall_cons; split); try apply Forall_nil; exact I.
Defined.

Example undecoded_statement_example :
  calculate_financial_metric undecoded_bundle "net_profit_margin"
  = Ok {[ "indicator" := PyVal (PyStr "net_profit_margin"); "value" := PyVal PyNone ]}.
Proof. apply (bool_decide_unpack _). vm_compute. exact I. Qed.

Lemma required_fields_unknown indicator :
  indicator ∉ supported_indicators → required_fields indicator = [].
Proof.
  unfold supported_indicators, required_fields. intros Hnot.
  rewrite !not_elem_of_cons in Hnot. destruct_and!.
  by rewrite !(proj2 (String.eqb_neq indicator _)).
Qed.

(** X7: A text in place of a mapping makes the resolver raise as soon as the
    field name occurs in it: if the source that a metric tries first is a
    text that contains the name of the field looked up, the [TypeError] of
    indexing a text by a name escapes. *)
Theorem text_source_raises fd indicator key src s :
  first_lookup indicator = Some (key, src) →
  fd !! src = Some (PyVal (PyStr s)) →
  occurs key s = true →
  calculate_financial_metric fd indicator = Raise TypeError.
Proof.
  intros Hfirst Hsrc Hocc.
  destruct (decide (indicator ∈ supported_indicators)) as [Hin|Hnot];
    [|by unfold first_lookup in Hfirst; rewrite required_fields_unknown in Hfirst].
  unfold supported_indicators in Hin. unfold first_lookup in Hfirst.
  unfold calculate_financial_metric.
  repeat (apply elem_of_cons in Hin as [-> | Hin]); [..|by apply elem_of_nil in Hin].
  all: step_chain; step_chain in Hfirst.
  all: injection Hfirst as <- <-.
  all: unfold_branches.
  all: by rewrite (extract_value_text_raises _ _ _ _ s Hsrc Hocc).
Qed.

Lemma text_source_raises_witness :
  calculate_financial_metric lowercase_bundle "net_profit_margin" = Raise TypeError.
Proof.
  apply (text_source_raises lowercase_bundle "net_profit_margin"
           "revenue" "income_statement" "{'revenue': 100, 'net_income': 20}").
  - reflexivity.
  - reflexivity.
  - reflexivity.
Defined.

(** * Properties of the trading signals *)

Example valley_signals :
  (λ out, out !! "signal") <$>
    (match calculate_trading_opportunities (price_frame valley_prices) 1 2 with
     | Done out => Some out
     | Fails _ => None
     end)
  = Some (Some (NumCol [Fin 0; Fin 0; Fin 0; Fin 1; Fin 0; Fin 0])).
Proof. apply (bool_decide_unpack _). vm_compute. exact I. Qed.

Lemma rolling_mean_returns (window : Z) (values : list pyfloat) :
  (0 ≤ window)%Z →
  ∃ out, rolling_mean window values = Ok out ∧ length out = length values.
Proof.
  intros Hw. unfold rolling_mean. rewrite bool_decide_eq_false_2 by lia.
  case_bool_decide; eexists; (split; [done|]).
  - by rewrite length_fmap.
  - by rewrite roll_mean_length.
Qed.

Lemma series_shift_length xs : length (series_shift xs) = length xs.
Proof. unfold series_shift. rewrite length_take. simpl. lia. Qed.

Lemma series_shift_first x xs : series_shift (x :: xs) !! 0%nat = Some NaN.
Proof. done. Qed.

Lemma series_shift_next xs (i : nat) :
  (S i < length xs)%nat → series_shift xs !! S i = xs !! i.
Proof.
  intros Hi. unfold series_shift. by rewrite lookup_take_lt by done.
Qed.

(** The signal of a row, from the four values of the row: the second
    assignment overrides the first. *)
Lemma signal_column_lookup short_ma long_ma (i : nat) s l ps pl :
  short_ma !! i = Some s → long_ma !! i = Some l →
  series_shift short_ma !! i = Some ps → series_shift long_ma !! i = Some pl →
  signal_column short_ma long_ma !! i =
    Some (if flt s l && fle pl ps then Fin (- 1)
          else if flt l s && fle ps pl then Fin 1
          else Fin 0).
Proof.
  intros Hs Hl Hps Hpl. unfold signal_column, loc_assign, crosses_above, crosses_below.
  rewrite !lookup_zip_with, Hs, Hl, Hps, Hpl.
  rewrite lookup_replicate_2 by by eapply lookup_lt_Some.
  simpl. by destruct (flt s l && fle pl ps), (flt l s && fle ps pl).
Qed.

Lemma signal_column_length short_ma long_ma :
  length long_ma = length short_ma →
  length (signal_column short_ma long_ma) = length short_ma.
Proof.
  intros Hlen. unfold signal_column, loc_assign, crosses_above, crosses_below.
  rewrite !length_zip_with, !series_shift_length, length_replicate. lia.
Qed.

(** The frame that the function returns, from the two moving averages. *)
Lemma trading_frame prices close (short_window long_window : Z) :
  prices !! "close" = Some (NumCol close) →
  (0 ≤ short_window)%Z → (0 ≤ long_window)%Z →
  ∃ short_ma long_ma,
    rolling_mean short_window close = Ok short_ma
    ∧ rolling_mean long_window close = Ok long_ma
    ∧ length short_ma = length close
    ∧ length long_ma = length close
    ∧ calculate_trading_opportunities prices short_window long_window
        = Done (<["signal" := NumCol (signal_column short_ma long_ma)]>
                 (<["prev_long" := NumCol (series_shift long_ma)]>
                    (<["prev_short" := NumCol (series_shift short_ma)]>
                       (<["long_ma" := NumCol long_ma]>
                          (<["short_ma" := NumCol short_ma]> prices))))).
Proof.
  intros Hclose Hs Hl.
  destruct (rolling_mean_returns short_window close Hs) as (short_ma & Hsm & Hslen).
  destruct (rolling_mean_returns long_window close Hl) as (long_ma & Hlm & Hllen).
  exists short_ma, long_ma. repeat (split; [done|]).
  unfold calculate_trading_opportunities, frame_getitem, rolling_column.
  rewrite !(bool_decide_eq_false_2 (short_window < 0)%Z) by lia.
  rewrite !(bool_decide_eq_false_2 (long_window < 0)%Z) by lia.
  rewrite Hclose. cbn [mbind frame_result_bind]. rewrite Hsm.
  cbn [mbind frame_result_bind]. cbv zeta.
  rewrite lookup_insert_ne by done. rewrite Hclose.
  cbn [mbind frame_result_bind]. by rewrite Hlm.
Qed.

Lemma loc_assign_Forall (P : pyfloat → Prop) mask value signal :
  P value → Forall P signal → Forall P (loc_assign mask value signal).
Proof.
  intros Hv Hs. revert mask. induction Hs as [|s signal Hs _ IH]; intros [|m mask];
    try by constructor.
  unfold loc_assign. simpl. constructor; [by destruct m|apply IH].
Qed.

(** X8: On a frame with a numeric "close" column and windows that are not
    negative, the function returns a frame: the five columns it writes are
    numeric and as long as "close", every other column is the one it was,
    and every entry of "signal" is -1, 0 or 1. *)
Theorem trading_frame_shape prices close (short_window long_window : Z) :
  prices !! "close" = Some (NumCol close) →
  (0 ≤ short_window)%Z → (0 ≤ long_window)%Z →
  ∃ out,
    calculate_trading_opportunities prices short_window long_window = Done out
    ∧ (∀ name, name ∉ signal_columns → out !! name = prices !! name)
    ∧ (∀ name, name ∈ signal_columns →
         ∃ values, out !! name = Some (NumCol values)
                   ∧ length values = length close)
    ∧ (∃ signal, out !! "signal" = Some (NumCol signal)
                 ∧ Forall (λ s, s = Fin 0 ∨ s = Fin 1 ∨ s = Fin (- 1)) signal).
Proof.
  intros Hclose Hs Hl.
  destruct (trading_frame prices close _ _ Hclose Hs Hl)
    as (short_ma & long_ma & _ & _ & Hslen & Hllen & ->).
  eexists. split; [done|]. split; [|split].
  - intros name Hname. unfold signal_columns in Hname.
    rewrite !not_elem_of_cons in Hname. destruct_and!.
    by rewrite !lookup_insert_ne by done.
  - intros name Hname. unfold signal_columns in Hname.
    repeat (apply elem_of_cons in Hname as [-> | Hname]);
      [..|by apply elem_of_nil in Hname].
    all: simplify_map_eq; eexists; split; [done|].
    all: rewrite ?signal_column_length, ?series_shift_length by congruence; done.
  - eexists. split; [by simplify_map_eq|].
    unfold signal_column. apply loc_assign_Forall; [by right; right|].
    apply loc_assign_Forall; [by right; left|].
    apply Forall_replicate. by left.
Qed.

Lemma trading_frame_shape_witness :
  ∃ out,
    calculate_trading_opportunities (price_frame valley_prices) 1 2 = Done out
    ∧ (∀ name, name ∉ signal_columns → out !! name = price_frame valley_prices !! name)
    ∧ (∀ name, name ∈ signal_columns →
         ∃ values, out !! name = Some (NumCol values)
                   ∧ length values = length (Fin <$> valley_prices))
    ∧ (∃ signal, out !! "signal" = Some (NumCol signal)
                 ∧ Forall (λ s, s = Fin 0 ∨ s = Fin 1 ∨ s = Fin (- 1)) signal).
Proof.
  apply (trading_frame_shape (price_frame valley_prices) (Fin <$> valley_prices) 1 2).
  - reflexivity.
  - lia.
  - lia.
Defined.



(** The moving average of finite prices and its shift, row by row. *)
Lemma moving_average_lookup (xs : list Qc) (w : Z) ma (i : nat) :
  (1 ≤ w)%Z → rolling_mean w (Fin <$> xs) = Ok ma → (i < length xs)%nat →
  ma !! i = Some (if bool_decide (Z.to_nat w ≤ i + 1)%nat
                  then Fin (average w i xs) else NaN).
Proof.
  intros Hw Hma Hi.
  destruct (rolling_mean_finite w xs Hw) as (out & Hout & _ & Hlook).
  rewrite Hout in Hma. injection Hma as <-. by apply Hlook.
Qed.

Lemma shifted_average_lookup (xs : list Qc) (w : Z) ma (i : nat) :
  (1 ≤ w)%Z → rolling_mean w (Fin <$> xs) = Ok ma → (i < length xs)%nat →
  series_shift ma !! i = Some (if bool_decide (Z.to_nat w ≤ i)%nat
                               then Fin (average w (i - 1) xs) else NaN).
Proof.
  intros Hw Hma Hi.
  destruct (rolling_mean_returns w (Fin <$> xs)) as (ma' & Hma' & Hlen); [lia|].
  rewrite Hma in Hma'. injection Hma' as <-. rewrite length_fmap in Hlen.
  destruct i as [|i].
  - rewrite bool_decide_eq_false_2 by lia.
    destruct ma; [simpl in Hlen; lia|done].
  - rewrite series_shift_next by lia.
    rewrite (moving_average_lookup xs w ma i Hw Hma) by lia.
    replace (S i - 1)%nat with i by lia.
    by replace (i + 1)%nat with (S i) by lia.
Qed.

Lemma signal_values_distinct :
  Fin 1 ≠ Fin 0 ∧ Fin (- 1) ≠ Fin 0 ∧ Fin 1 ≠ Fin (- 1).
Proof. by repeat split; intros [=]. Qed.

(** X10: No signal before both averages have a past: with windows of at least 1
    and finite closing prices, the signal is 0 in each of the first
    [max(short_window, long_window)] rows. *)
Theorem no_signal_in_first_rows prices (xs : list Qc) (short_window long_window : Z) :
  prices !! "close" = Some (NumCol (Fin <$> xs)) →
  (1 ≤ short_window)%Z → (1 ≤ long_window)%Z →
  ∃ out signal,
    calculate_trading_opportunities prices short_window long_window = Done out
    ∧ out !! "signal" = Some (NumCol signal)
    ∧ length signal = length xs
    ∧ ∀ i, (i < Z.to_nat short_window `max` Z.to_nat long_window)%nat →
           (i < length xs)%nat →
           signal !! i = Some (Fin 0).
Proof.
  intros Hclose Hs Hl.
  destruct (trading_frame prices _ short_window long_window Hclose)
    as (short_ma & long_ma & Hsm & Hlm & Hslen & Hllen & ->); [lia..|].
  rewrite length_fmap in Hslen, Hllen.
  eexists _, _. split; [done|]. split; [by simplify_map_eq|].
  split; [rewrite signal_column_length; congruence|].
  intros i Hmax Hi.
  rewrite (signal_column_lookup _ _ i _ _ _ _
             (moving_average_lookup xs _ _ i Hs Hsm Hi)
             (moving_average_lookup xs _ _ i Hl Hlm Hi)
             (shifted_average_lookup xs _ _ i Hs Hsm Hi)
             (shifted_average_lookup xs _ _ i Hl Hlm Hi)).
  destruct (decide (i < Z.to_nat short_window)%nat).
  - rewrite (bool_decide_eq_false_2 (Z.to_nat short_window ≤ i)%nat) by lia.
    repeat case_bool_decide; simpl; by rewrite ?andb_false_r.
  - rewrite (bool_decide_eq_false_2 (Z.to_nat long_window ≤ i)%nat) by lia.
    repeat case_bool_decide; simpl; by rewrite ?andb_false_r.
Qed.

Lemma no_signal_in_first_rows_witness :
  ∃ out signal,
    calculate_trading_opportunities (price_frame valley_prices) 1 2 = Done out
    ∧ out !! "signal" = Some (NumCol signal)
    ∧ length signal = length valley_prices
    ∧ ∀ i, (i < Z.to_nat 1 `max` Z.to_nat 2)%nat →
           (i < length valley_prices)%nat →
           signal !! i = Some (Fin 0).
Proof.
  apply (no_signal_in_first_rows (price_frame valley_prices) valley_prices 1 2).
  - reflexivity.
  - lia.
  - lia.
Defined.



Lemma flt_irreflexive x : flt x x = false.
Proof.
  destruct x as [a| |[]]; simpl; try done.
  apply bool_decide_eq_false_2. intros Hlt. by apply Qclt_not_eq in Hlt.
Qed.

Lemma flt_excludes_fle x y : flt y x = true → fle x y = false.
Proof.
  destruct x as [a| |[]], y as [b| |[]]; simpl; try done.
  intros Hlt%bool_decide_eq_true_1.
  by apply bool_decide_eq_false_2, Qclt_not_le.
Qed.

(** X12: With equal windows the two averages coincide and never cross: every
    signal is 0, whatever the prices. *)
Theorem equal_windows_give_no_signal prices close (window : Z) :
  prices !! "close" = Some (NumCol close) →
  (0 ≤ window)%Z →
  ∃ out,
    calculate_trading_opportunities prices window window = Done out
    ∧ out !! "signal" = Some (NumCol (replicate (length close) (Fin 0))).
Proof.
  intros Hclose Hw.
  destruct (trading_frame prices _ window window Hclose)
    as (short_ma & long_ma & Hsm & Hlm & Hslen & Hllen & ->); [lia..|].
  rewrite Hsm in Hlm. injection Hlm as <-.
  eexists. split; [done|]. simplify_map_eq. do 2 f_equal.
  apply list_eq. intros i.
  destruct (decide (i < length close)%nat) as [Hi|Hi].
  - destruct (lookup_lt_is_Some_2 short_ma i) as [s Hs]; [lia|].
    destruct (lookup_lt_is_Some_2 (series_shift short_ma) i) as [ps Hps];
      [rewrite series_shift_length; lia|].
    rewrite (signal_column_lookup _ _ i s s ps ps) by done.
    rewrite lookup_replicate_2 by done.
    by rewrite !flt_irreflexive.
  - rewrite !lookup_ge_None_2; [done|rewrite length_replicate; lia|].
    rewrite signal_column_length by done. lia.
Qed.

Lemma equal_windows_give_no_signal_witness :
  ∃ out,
    calculate_trading_opportunities (price_frame valley_prices) 2 2 = Done out
    ∧ out !! "signal"
      = Some (NumCol (replicate (length (Fin <$> valley_prices)) (Fin 0))).
Proof.
  apply (equal_windows_give_no_signal (price_frame valley_prices)
           (Fin <$> valley_prices) 2).
  - reflexivity.
  - lia.
Defined.

(** X13: A signal is never repeated in the next row: after a buy the next row is
    not a buy, and after a sell the next row is not a sell. *)
Theorem signal_not_repeated prices close (short_window long_window : Z) :
  prices !! "close" = Some (NumCol close) →
  (0 ≤ short_window)%Z → (0 ≤ long_window)%Z →
  ∃ out signal,
    calculate_trading_opportunities prices short_window long_window = Done out
    ∧ out !! "signal" = Some (NumCol signal)
    ∧ ∀ i, (signal !! i = Some (Fin 1) → signal !! S i ≠ Some (Fin 1))
           ∧ (signal !! i = Some (Fin (- 1)) → signal !! S i ≠ Some (Fin (- 1))).
Proof.
  intros Hclose Hs Hl.
  destruct (trading_frame prices _ short_window long_window Hclose)
    as (short_ma & long_ma & Hsm & Hlm & Hslen & Hllen & ->); [lia..|].
  eexists _, _. split; [done|]. split; [by simplify_map_eq|].
  destruct signal_values_distinct as (H10 & Hm0 & H1m).
  intros i.
  destruct (decide (S i < length close)%nat) as [Hi|Hi]; last first.
  { split; intros _; rewrite lookup_ge_None_2; try done;
      rewrite signal_column_length by congruence; lia. }
  destruct (lookup_lt_is_Some_2 short_ma i) as [s Hsi]; [lia|].
  destruct (lookup_lt_is_Some_2 long_ma i) as [l Hli]; [lia|].
  destruct (lookup_lt_is_Some_2 short_ma (S i)) as [s' Hsi']; [lia|].
  destruct (lookup_lt_is_Some_2 long_ma (S i)) as [l' Hli']; [lia|].
  destruct (lookup_lt_is_Some_2 (series_shift short_ma) i) as [ps Hps];
    [rewrite series_shift_length; lia|].
  destruct (lookup_lt_is_Some_2 (series_shift long_ma) i) as [pl Hpl];
    [rewrite series_shift_length; lia|].
  rewrite (signal_column_lookup _ _ i s l ps pl) by done.
  rewrite (signal_column_lookup _ _ (S i) s' l' s l)
    by (done || (rewrite series_shift_next by lia; done)).
  split; intros Hrow.
  - assert (flt l s = true) as Hls.
    { destruct (flt s l && fle pl ps); [congruence|].
      destruct (flt l s); [done|]. cbn [andb] in Hrow. congruence. }
    rewrite (flt_excludes_fle _ _ Hls), andb_false_r.
    destruct (flt s' l' && fle l s); congruence.
  - assert (flt s l = true) as Hsl.
    { destruct (flt s l); [done|]. cbn [andb] in Hrow.
      destruct (flt l s && fle ps pl); congruence. }
    rewrite (flt_excludes_fle _ _ Hsl), andb_false_r.
    destruct (flt l' s' && fle s l); congruence.
Qed.

Lemma signal_not_repeated_witness :
  ∃ out signal,
    calculate_trading_opportunities (price_frame valley_prices) 1 2 = Done out
    ∧ out !! "signal" = Some (NumCol signal)
    ∧ ∀ i, (signal !! i = Some (Fin 1) → signal !! S i ≠ Some (Fin 1))
           ∧ (signal !! i = Some (Fin (- 1)) → signal !! S i ≠ Some (Fin (- 1))).
Proof.
  apply (signal_not_repeated (price_frame valley_prices) (Fin <$> valley_prices) 1 2).
  - reflexivity.
  - lia.
  - lia.
Defined.

(** * Further properties of the indicator engine *)

(** ** Means stay within the range of the values *)

Lemma convex_within (lo hi alpha a b : Qc) :
  0 ≤ alpha → alpha ≤ 1 → within lo hi a → within lo hi b →
  within lo hi (alpha * a + (1 - alpha) * b).
Proof.
  intros Ha0 Ha1 [Hla Hah] [Hlb Hbh].
  assert (0 ≤ 1 - alpha) as Hc.
  { unfold Qcminus. rewrite <-(Qcplus_opp_r alpha).
    by apply Qcplus_le_mono_r. }
  split.
  - replace lo with (alpha * lo + (1 - alpha) * lo) by ring.
    apply Qcplus_le_compat; by apply Qcmult_le_mono_nonneg_l.
  - replace hi with (alpha * hi + (1 - alpha) * hi) by ring.
    apply Qcplus_le_compat; by apply Qcmult_le_mono_nonneg_l.
Qed.

Lemma ewm_alpha_unit (span : Z) :
  (1 ≤ span)%Z → 0 ≤ ewm_alpha span ∧ ewm_alpha span ≤ 1.
Proof.
  intros Hspan. rewrite ewm_alpha_span by done.
  assert (0 < Qc_of_Z span + 1) as Hpos.
  { rewrite <-Z2Qc_inj_1, <-Z2Qc_inj_add. apply Qc_of_Z_pos. lia. }
  assert (2 ≤ Qc_of_Z span + 1) as Htwo.
  { rewrite <-Z2Qc_inj_2, <-Z2Qc_inj_1, <-Z2Qc_inj_add.
    apply (proj1 (Z2Qc_inj_le _ _)). lia. }
  assert (Qc_of_Z span + 1 ≠ 0) as Hne by (by apply not_eq_sym, Qclt_not_eq).
  split.
  - unfold Qcdiv. apply Qcmult_nonneg_nonneg; [done|].
    by apply Qclt_le_weak, Qcinv_pos.
  - apply (Qcmult_le_mono_pos_r _ _ (Qc_of_Z span + 1)); [done|].
    replace (2 / (Qc_of_Z span + 1) * (Qc_of_Z span + 1)) with 2 by (by field).
    by rewrite Qcmult_1_l.
Qed.

Lemma ewm_loop_within (lo hi alpha weighted : Qc) todo :
  0 ≤ alpha → alpha ≤ 1 → within lo hi weighted → Forall (within lo hi) todo →
  Forall (within lo hi) (ewm_loop alpha weighted todo).
Proof.
  intros Ha0 Ha1 Hw Htodo. revert weighted Hw.
  induction Htodo as [|cur rest Hcur _ IH]; intros weighted Hw; simpl;
    [by constructor|].
  assert (within lo hi (ewm_step alpha weighted cur)) as Hstep.
  { rewrite ewm_step_recurrence. by apply convex_within. }
  constructor; [done|by apply IH].
Qed.

Lemma ewm_mean_within (lo hi : Qc) (span : Z) xs :
  (1 ≤ span)%Z → Forall (within lo hi) xs →
  ∃ out, ewm_mean span xs = Ok out
         ∧ length out = length xs
         ∧ out !! 0%nat = xs !! 0%nat
         ∧ Forall (within lo hi) out.
Proof.
  intros Hspan Hxs. unfold ewm_mean. rewrite bool_decide_eq_false_2 by lia.
  destruct (ewm_alpha_unit span Hspan) as [Ha0 Ha1].
  destruct Hxs as [|first rest Hfirst Hrest].
  - by exists [].
  - eexists. split; [done|]. split; [by simpl; rewrite ewm_loop_length|].
    split; [done|]. constructor; [done|by apply ewm_loop_within].
Qed.

Lemma qsum_within (lo hi : Qc) l :
  Forall (within lo hi) l →
  lo * Qc_of_Z (Z.of_nat (length l)) ≤ qsum l
  ∧ qsum l ≤ hi * Qc_of_Z (Z.of_nat (length l)).
Proof.
  induction 1 as [|x l [Hlo Hhi] _ [IHlo IHhi]]; simpl length; simpl qsum.
  - change (Z.of_nat 0) with 0%Z. rewrite Z2Qc_inj_0, !Qcmult_0_r. done.
  - rewrite Nat2Z.inj_succ, <-Z.add_1_l, Z2Qc_inj_add, Z2Qc_inj_1.
    rewrite !Qcmult_plus_distr_r, !Qcmult_1_r.
    split; by apply Qcplus_le_compat.
Qed.

Lemma mean_within (lo hi : Qc) l :
  l ≠ [] → Forall (within lo hi) l → within lo hi (mean l).
Proof.
  intros Hne Hl. destruct (qsum_within lo hi l Hl) as [Hlo Hhi].
  assert (0 < Qc_of_Z (Z.of_nat (length l))) as Hpos.
  { apply Qc_of_Z_pos. destruct l; [done|simpl; lia]. }
  assert (Qc_of_Z (Z.of_nat (length l)) ≠ 0) as Hnz
    by (by apply not_eq_sym, Qclt_not_eq).
  unfold mean. split.
  - apply (Qcmult_le_mono_pos_r _ _ (Qc_of_Z (Z.of_nat (length l)))); [done|].
    by replace (qsum l / Qc_of_Z (Z.of_nat (length l)) * Qc_of_Z (Z.of_nat (length l)))
      with (qsum l) by (by field).
  - apply (Qcmult_le_mono_pos_r _ _ (Qc_of_Z (Z.of_nat (length l)))); [done|].
    by replace (qsum l / Qc_of_Z (Z.of_nat (length l)) * Qc_of_Z (Z.of_nat (length l)))
      with (qsum l) by (by field).
Qed.

Lemma trailing_window_nonempty (w i : nat) (xs : list Qc) :
  (1 ≤ w)%nat → (w ≤ i + 1)%nat → (i < length xs)%nat →
  trailing_window w i xs ≠ [].
Proof.
  intros Hw Hwi Hi Heq. apply (f_equal length) in Heq.
  unfold trailing_window in Heq. rewrite length_take, length_drop in Heq.
  simpl in Heq. lia.
Qed.

Section moving_averages.
Context `{Runtime}.



(** X16: The MACD branch never reports an error, whatever the window: both
    outputs have the length of the series and start at 0, and a constant
    series gives 0 throughout. *)
Theorem macd_shape (price_data : list Qc) (window : Z) :
  ∃ macd signal : list Qc,
    calculate_technical_indicators price_data "macd" window
      = {[ "macd_signal" := PyList (num_of <$> signal);
           "macd" := PyList (num_of <$> macd) ]}
    ∧ length macd = length price_data
    ∧ length signal = length price_data
    ∧ (price_data ≠ [] → macd !! 0%nat = Some 0 ∧ signal !! 0%nat = Some 0)
    ∧ (∀ c, Forall (λ x, x = c) price_data →
            Forall (λ x, x = 0) macd ∧ Forall (λ x, x = 0) signal).
Proof.
  assert (∀ xs, Forall (within 0 0) xs ↔ Forall (λ x : Qc, x = 0) xs) as Hzero.
  { intros xs. apply Forall_proper; [|done]. intros x. unfold within. split.
    - intros [? ?]. by apply Qcle_antisym.
    - by intros ->. }
  unfold calculate_technical_indicators, indicator_body.
  cbn [String.eqb Ascii.eqb Bool.eqb].
  assert (∀ span xs, (1 ≤ span)%Z →
            ∃ out, ewm_mean span xs = Ok out ∧ length out = length xs
                   ∧ out !! 0%nat = xs !! 0%nat
                   ∧ ∀ lo hi, Forall (within lo hi) xs → Forall (within lo hi) out)
    as Hewm.
  { intros span xs Hspan. unfold ewm_mean. rewrite bool_decide_eq_false_2 by lia.
    destruct xs as [|first rest].
    - exists []. repeat split; by try constructor.
    - eexists. split; [done|]. split; [by simpl; rewrite ewm_loop_length|].
      split; [done|]. intros lo hi Hin.
      destruct (ewm_mean_within lo hi span (first :: rest) Hspan Hin)
        as (out & Hout & _ & _ & Hwithin).
      unfold ewm_mean in Hout. rewrite bool_decide_eq_false_2 in Hout by lia.
      by injection Hout as <-. }
  destruct (Hewm 12%Z price_data) as (ema12 & H12 & Hlen12 & Hhd12 & Hin12); [lia|].
  destruct (Hewm 26%Z price_data) as (ema26 & H26 & Hlen26 & Hhd26 & Hin26); [lia|].
  destruct (Hewm 9%Z (zip_with Qcminus ema12 ema26))
    as (signal & H9 & Hlen9 & Hhd9 & Hin9); [lia|].
  exists (zip_with Qcminus ema12 ema26), signal.
  rewrite H12, H26. cbn [mbind pyresult_bind]. rewrite H9. cbn [mbind pyresult_bind].
  unfold tolist. rewrite <-!list_fmap_compose.
  split; [done|].
  assert (length (zip_with Qcminus ema12 ema26) = length price_data) as Hlen
    by (rewrite length_zip_with; lia).
  split; [done|]. split; [congruence|]. split.
  - intros Hne. rewrite Hhd9.
    destruct price_data as [|first rest]; [done|].
    destruct ema12 as [|a ema12]; [done|]. destruct ema26 as [|b ema26]; [done|].
    simpl in *. simplify_eq. split; f_equal; ring.
  - intros c Hc.
    assert (Forall (within c c) price_data) as Hcc.
    { eapply Forall_impl; [exact Hc|]. intros x ->. by split. }
    assert (Forall (λ x, x = 0) (zip_with Qcminus ema12 ema26)) as Hmacd.
    { specialize (Hin12 c c Hcc). specialize (Hin26 c c Hcc).
      clear -Hin12 Hin26. revert ema26 Hin26.
      induction Hin12 as [|a ema12 [Ha1 Ha2] _ IH]; intros ema26 Hin26;
        [by constructor|].
      destruct Hin26 as [|b ema26 [Hb1 Hb2] Hrest]; [by constructor|].
      simpl. constructor; [|by apply IH].
      assert (a = c) as -> by (by apply Qcle_antisym).
      assert (b = c) as -> by (by apply Qcle_antisym). ring. }
    split; [done|]. by apply Hzero, Hin9, Hzero.
Qed.
End moving_averages.



(** ** The strength index *)

Lemma fall_nonneg prev cur : 0 ≤ fall prev cur.
Proof.
  unfold fall. replace 0 with (- 0) at 1 by ring. apply Qcopp_le_compat.
  case_bool_decide; [by apply Qclt_le_weak|done].
Qed.

Lemma losses_nonneg xs : Forall (λ l, 0 ≤ l) (losses xs).
Proof.
  destruct xs as [|x rest]; [by constructor|]. unfold losses.
  constructor; [by replace (- 0) with 0 by ring|].
  generalize (x :: rest) as l. intros l. revert l.
  induction rest as [|c rest IH]; intros [|p l]; simpl; try by constructor.
  constructor; [apply fall_nonneg|apply IH].
Qed.

Lemma sum_zero_iff (g l : Qc) : 0 ≤ g → 0 ≤ l → g + l = 0 ↔ g = 0 ∧ l = 0.
Proof.
  intros Hg Hl. split; [|by intros [-> ->]; ring].
  intros Hsum.
  assert (g ≤ 0) as Hg0.
  { rewrite <-Hsum. rewrite <-(Qcplus_0_r g) at 1. by apply Qcplus_le_mono_l. }
  assert (g = 0) as -> by (by apply Qcle_antisym).
  split; [done|]. by rewrite Qcplus_0_l in Hsum.
Qed.

(** The index from the two averages: [100 * g / (g + l)], and undefined when
    both are 0. *)
Lemma rsi_of_averages (g l : Qc) :
  0 ≤ g → 0 ≤ l →
  rsi_of_rs (fdiv (Fin g) (Fin l))
  = if bool_decide (g + l = 0) then NaN else Fin (Qc_of_Z 100 * g / (g + l)).
Proof.
  intros Hg Hl. destruct (decide (l = 0)) as [->|Hl0].
  - rewrite rsi_of_zero_loss by done. rewrite Qcplus_0_r.
    case_bool_decide as Hg0; [done|]. f_equal. by field.
  - assert (g + l ≠ 0) as Hsum.
    { intros Hsum. by apply sum_zero_iff in Hsum as [_ ?]. }
    rewrite (bool_decide_eq_false_2 (g + l = 0)) by done.
    assert (1 + g / l ≠ 0) as Hone.
    { replace (1 + g / l) with ((g + l) / l) by (by field).
      by apply Qcdiv_nonzero. }
    unfold rsi_of_rs, fdiv. rewrite (bool_decide_eq_false_2 (l = 0)) by done.
    unfold fadd at 1. rewrite (bool_decide_eq_false_2 (1 + g / l = 0)) by done.
    unfold fsub, fneg, fadd. f_equal. by field.
Qed.

Section strength_index.
Context `{Runtime}.

(** The entries of the "rsi" output, from the averages of the rises and of
    the falls. *)
Lemma rsi_entries (price_data : list Qc) (window : Z) :
  (1 ≤ window)%Z →
  ∃ rsi,
    calculate_technical_indicators price_data "rsi" window
      = {[ "rsi" := PyList rsi ]}
    ∧ length rsi = length price_data
    ∧ ∀ i, (i < length price_data)%nat →
        rsi !! i =
          Some (PyNum
            (if bool_decide (Z.to_nat window ≤ i + 1)%nat
             then
               let g := average window i (gains price_data) in
               let l := average window i (losses price_data) in
               if bool_decide (g + l = 0) then NaN
               else Fin (Qc_of_Z 100 * g / (g + l))
             else NaN)).
Proof.
  intros Hw.
  destruct (rolling_mean_finite window (gains price_data) Hw)
    as (gout & Hg & Hglen & Hglook).
  destruct (rolling_mean_finite window (losses price_data) Hw)
    as (lout & Hl & Hllen & Hllook).
  rewrite gains_length in Hglen, Hglook. rewrite losses_length in Hllen, Hllook.
  unfold calculate_technical_indicators, indicator_body.
  cbn [String.eqb Ascii.eqb Bool.eqb].
  unfold rsi_gain, rsi_loss. rewrite where_gains, where_losses, Hg, Hl.
  cbn [mbind pyresult_bind]. eexists. split; [reflexivity|]. split.
  - unfold tolist. rewrite !length_fmap, length_zip_with. lia.
  - intros i Hi.
    rewrite !list_lookup_fmap, lookup_zip_with, (Hglook i Hi), (Hllook i Hi).
    cbn [mbind option_bind fmap option_fmap option_map].
    case_bool_decide as Hwi; [|done].
    rewrite rsi_of_averages; [done|..].
    + apply mean_nonneg, Forall_take, Forall_drop, gains_nonneg.
    + apply mean_nonneg, Forall_take, Forall_drop, losses_nonneg.
Qed.


End strength_index.



Example zigzag_strength_index :
  calculate_technical_indicators (H:=sample_runtime) zigzag_prices "rsi" 3
  = {[ "rsi" := PyList [PyNum NaN; PyNum NaN;
                        num_of (Qc_of_Z 200 / Qc_of_Z 3);
                        num_of (Qc_of_Z 80);
                        num_of (Qc_of_Z 200 / Qc_of_Z 3);
                        num_of (Qc_of_Z 100 / Qc_of_Z 3)] ]}.
Proof. apply (bool_decide_unpack _). vm_compute. exact I. Qed.

(** ** Refusals *)

Section refusals.
Context `{Runtime}.

(** X19: An unknown kind gives a result that holds only an "error" entry, with
    the name in the message, for every series and window. *)
Theorem unknown_kind_gives_error (price_data : list Qc) (indicator : string)
    (window : Z) :
  indicator ∉ indicator_kinds →
  calculate_technical_indicators price_data indicator window
    = {[ "error" := PyVal (PyStr ("Unknown indicator: " +:+ indicator)) ]}.
Proof.
  unfold indicator_kinds. intros Hnot.
  rewrite !not_elem_of_cons in Hnot. destruct_and!.
  unfold calculate_technical_indicators, indicator_body.
  by rewrite !(proj2 (String.eqb_neq indicator _)).
Qed.


Lemma ewm_loop_unit weighted todo : ewm_loop 1 weighted todo = todo.
Proof.
  revert weighted. induction todo as [|cur rest IH]; intros weighted; [done|].
  simpl. rewrite ewm_step_recurrence.
  replace (1 * cur + (1 - 1) * weighted) with cur by ring. by rewrite IH.
Qed.

Lemma mean_singleton (x : Qc) : mean [x] = x.
Proof.
  unfold mean, qsum. cbn [length foldr]. change (Z.of_nat 1) with 1%Z.
  rewrite Z2Qc_inj_1, Qcplus_0_r. apply (right_id 1 Qcdiv).
Qed.

End refusals.

Lemma unknown_kind_gives_error_witness :
  calculate_technical_indicators (H:=sample_runtime) zigzag_prices "bollinger" 14
    = {[ "error" := PyVal (PyStr "Unknown indicator: bollinger") ]}.
Proof.
  apply (unknown_kind_gives_error (H:=sample_runtime) zigzag_prices "bollinger" 14).
  apply (bool_decide_unpack _). vm_compute. exact I.
Defined.


(** * Further properties of the growth-rate calculator *)

Lemma scale_negative (c x : Qc) : 0 < c → c * x < 0 ↔ x < 0.
Proof.
  intros Hc. rewrite (Qcmult_lt_mono_pos_l x 0 c Hc). by rewrite Qcmult_0_r.
Qed.

Lemma scale_zero (c x : Qc) : 0 < c → c * x = 0 ↔ x = 0.
Proof.
  intros Hc. split; [|by intros ->; ring].
  intros Heq. apply Qcmult_integral in Heq as [->|?]; [|done].
  by apply Qclt_not_eq in Hc.
Qed.

Lemma qabs_scaled (c x : Qc) : 0 < c → qabs (c * x) = c * qabs x.
Proof.
  intros Hc. unfold qabs.
  destruct (decide (x < 0)) as [Hx|Hx].
  - rewrite !bool_decide_eq_true_2 by (done || by apply scale_negative). ring.
  - rewrite !bool_decide_eq_false_2 by (done || by rewrite scale_negative). done.
Qed.

Lemma period_rate_scaled (c prev cur : Qc) :
  0 < c → period_rate (c * prev) (c * cur) = period_rate prev cur.
Proof.
  intros Hc. unfold period_rate.
  assert (c ≠ 0) as Hc0 by (by apply not_eq_sym, Qclt_not_eq).
  destruct (decide (prev = 0)) as [->|Hprev].
  - rewrite !bool_decide_eq_true_2 by (done || ring). done.
  - rewrite !bool_decide_eq_false_2 by (done || by rewrite scale_zero).
    rewrite qabs_scaled by done. f_equal.
    field. split; [by apply qabs_nonzero|done].
Qed.

Lemma period_rates_scaled (c : Qc) (l k : list Qc) :
  0 < c →
  zip_with period_rate (scaled c l) (scaled c k) = zip_with period_rate l k.
Proof.
  intros Hc. revert k. induction l as [|p l IH]; intros [|q k]; try done.
  unfold scaled in *. cbn [fmap list_fmap zip_with].
  rewrite period_rate_scaled by done. f_equal. apply IH.
Qed.

Lemma last_scaled (c : Qc) xs final :
  last xs = Some final → last (scaled c xs) = Some (c * final).
Proof. intros Hlast. unfold scaled. by rewrite fmap_last, Hlast. Qed.

(** The period rate has the sign of the change, whatever the sign of the
    base. *)
Lemma period_rate_sign (prev cur : Qc) :
  prev ≠ 0 →
  ∃ r, period_rate prev cur = num_of r
       ∧ (0 < r ↔ prev < cur) ∧ (r < 0 ↔ cur < prev).
Proof.
  intros Hprev. unfold period_rate. rewrite bool_decide_eq_false_2 by done.
  eexists. split; [done|].
  assert (0 < qabs prev) as Hpos.
  { unfold qabs. case_bool_decide as Hneg.
    - apply Qclt_minus_iff in Hneg. by rewrite Qcplus_0_l in Hneg.
    - apply Qcnot_lt_le in Hneg. destruct (Qclt_le_dec 0 prev) as [|Hle]; [done|].
      exfalso. apply Hprev. by apply Qcle_antisym. }
  assert (qabs prev ≠ 0) as Hnz by (by apply not_eq_sym, Qclt_not_eq).
  assert ((cur - prev) / qabs prev * qabs prev = cur - prev) as Hmul by (by field).
  split.
  - rewrite (Qcmult_lt_mono_pos_r 0 _ (qabs prev) Hpos), Hmul, Qcmult_0_l.
    rewrite (Qcplus_lt_mono_r 0 (cur - prev) prev).
    by replace (cur - prev + prev) with cur by ring; rewrite Qcplus_0_l.
  - rewrite (Qcmult_lt_mono_pos_r _ 0 (qabs prev) Hpos), Hmul, Qcmult_0_l.
    rewrite (Qcplus_lt_mono_r (cur - prev) 0 prev).
    by replace (cur - prev + prev) with cur by ring; rewrite Qcplus_0_l.
Qed.

Lemma feq0_fabs x : feq0 x = false → feq0 (fabs x) = false.
Proof.
  destruct x as [a| |b]; simpl; try done.
  intros Ha%bool_decide_eq_false_1.
  by apply bool_decide_eq_false_2, qabs_nonzero.
Qed.

Lemma period_growth_outcome prev rest :
  (∃ rates, period_growth prev rest = Ok rates ∧ length rates = length rest)
  ∨ period_growth prev rest = Raise TypeError.
Proof.
  revert prev. induction rest as [|curr rest IH]; intros prev; [left; by eexists|].
  cbn [period_growth].
  assert ((∃ g, (if py_ne0 prev
                 then diff ← py_sub curr prev; a ← py_abs prev; py_truediv diff a
                 else Ok PyNone) = Ok g)
          ∨ (if py_ne0 prev
             then diff ← py_sub curr prev; a ← py_abs prev; py_truediv diff a
             else Ok PyNone) = Raise TypeError) as [[g ->]| ->]; [|..|by right].
  { unfold py_ne0, py_eq0.
    destruct prev as [|x|s]; cbn [negb]; [right; by destruct curr| |right; by destruct curr].
    destruct (feq0 x) eqn:Hx; cbn [negb]; [by eauto|].
    destruct curr as [|y|t]; cbn [py_sub mbind pyresult_bind]; [by right| |by right].
    cbn [py_abs mbind pyresult_bind py_truediv].
    rewrite (feq0_fabs x Hx). eauto. }
  cbn [mbind pyresult_bind].
  destruct (IH curr) as [(rates & -> & Hlen)| ->]; [left|by right].
  eexists. split; [done|]. simpl. by rewrite Hlen.
Qed.

Section growth_more.
Context `{Runtime}.

Lemma annualized_growth_outcome series :
  (∃ annualized, annualized_growth series = Ok annualized)
  ∨ annualized_growth series = Raise TypeError.
Proof.
  unfold annualized_growth.
  destruct series as [|first [|second rest]]; [by eauto..|].
  unfold py_ne0, py_eq0.
  destruct first as [|x|s]; cbn [negb]; try (by right; destruct (List.last _ _)).
  destruct (feq0 x) eqn:Hx; cbn [negb]; [by eauto|].
  destruct (List.last _ _) as [|y|t]; cbn [py_truediv mbind pyresult_bind];
    try by right.
  rewrite Hx. cbn [mbind pyresult_bind py_pow].
  left. destruct (float_pow _ _) as [r|[re im]]; by eexists.
Qed.


(** The period rates of the series, for finite numbers. *)
Lemma growth_rates_periods (xs : list Qc) :
  ∃ annualized,
    calculate_growth_rates (num_of <$> xs)
      = {[ "annualized_growth_rate" := annualized;
           "period_growth_rates" := PyList (zip_with period_rate xs (tail xs)) ]}.
Proof.
  destruct xs as [|first [|second rest]]; [by eexists..|].
  destruct (last (first :: second :: rest)) as [final|] eqn:Hlast;
    [|by apply last_None in Hlast].
  eexists. by apply growth_rates_numbers_long.
Qed.


End growth_more.


